(** * angular-build-info: a shallow embedding of [bin/build-info.js]

    The script collects build metadata (commit hash, git user, package
    version, timestamp), assembles it into an object and writes it as a
    TypeScript constant to [<cwd>/src/build.ts].

    The embedding follows the source function by function.  JavaScript
    strings are modelled by [string]: every [ascii] stands for one UTF-16
    code unit below 256.  The library routines the script calls
    ([Array.prototype.includes], [String.prototype.replace],
    [JSON.stringify], the regular expression of the key-unquoting step,
    promisified [child_process.exec], [fs.promises.writeFile], [signale])
    are modelled by what they do on the values the script hands them. *)

From Equations Require Import Equations.
From Stdlib Require Import List Bool Arith Lia Ascii String.
Import ListNotations.
Local Open Scope string_scope.

(** * The script *)

(** ** Characters and strings *)

Definition DQ : ascii := "034"%char.        (* the double quote *)
Definition BSLASH : ascii := "092"%char.    (* the backslash *)
Definition LF : ascii := "010"%char.        (* the line feed *)
Definition NBSP : ascii := "160"%char.      (* the no-break space, U+00A0 *)
Definition dq : string := String DQ "".
Definition nl : string := String LF "".

(** [xs.includes(x)] on an array of strings. *)
Definition includes (xs : list string) (x : string) : bool :=
  existsb (fun y => y =? x) xs.

(** [s.replace(pat, rep)] with a string pattern: only the first occurrence
    of [pat] is replaced (the replacement texts used by the script contain
    no [$]). *)
Fixpoint drop (n : nat) (s : string) : string :=
  match n, s with
  | S n', String _ s' => drop n' s'
  | _, _ => s
  end.

Fixpoint replace (pat rep s : string) : string :=
  if prefix pat s then rep ++ drop (length pat) s
  else match s with
       | "" => ""
       | String c s' => String c (replace pat rep s')
       end.

(** Truthiness of a string: the empty string is falsy. *)
Definition truthy (s : string) : bool :=
  match s with "" => false | _ => true end.

(** [contains sub s]: [sub] occurs in [s]. *)
Fixpoint contains (sub s : string) : bool :=
  prefix sub s ||
  match s with
  | "" => false
  | String _ s' => contains sub s'
  end.

(** [ends_with_newline s]: the last code unit of [s] is a line feed. *)
Fixpoint ends_with_newline (s : string) : bool :=
  match s with
  | "" => false
  | String c "" => Ascii.eqb c LF
  | String _ s' => ends_with_newline s'
  end.

(** ** Values and objects

    The values the script stores in the build object are strings or
    [undefined].  An object is the list of its own properties in insertion
    order, which is the order [JSON.stringify] enumerates them in (none of
    the keys used is an array index). *)

Inductive value : Type :=
| VUndefined
| VString (s : string).

Definition object : Type := list (string * value).

(** [o.k = v]: overwrite in place when the property exists, append
    otherwise. *)
Fixpoint set_prop (o : object) (k : string) (v : value) : object :=
  match o with
  | [] => [(k, v)]
  | (k', v') :: o' =>
      if k' =? k then (k', v) :: o' else (k', v') :: set_prop o' k v
  end.

Definition keys (o : object) : list string := map fst o.

Definition get_prop (o : object) (k : string) : option value :=
  match find (fun kv => fst kv =? k) o with
  | Some kv => Some (snd kv)
  | None => None
  end.

(** ** [JSON.stringify(o, null, 4)] *)

Definition hex_digit (n : nat) : ascii :=
  match n with
  | 0 => "0" | 1 => "1" | 2 => "2" | 3 => "3" | 4 => "4"
  | 5 => "5" | 6 => "6" | 7 => "7" | 8 => "8" | 9 => "9"
  | 10 => "a" | 11 => "b" | 12 => "c" | 13 => "d" | 14 => "e"
  | _ => "f"
  end%char.

(** One code unit inside QuoteJSONString. *)
Definition escape_char (c : ascii) : string :=
  let n := nat_of_ascii c in
  if Ascii.eqb c DQ then String BSLASH dq
  else if Ascii.eqb c BSLASH then String BSLASH (String BSLASH "")
  else if (n =? 8)%nat then String BSLASH "b"
  else if (n =? 9)%nat then String BSLASH "t"
  else if (n =? 10)%nat then String BSLASH "n"
  else if (n =? 12)%nat then String BSLASH "f"
  else if (n =? 13)%nat then String BSLASH "r"
  else if (n <? 32)%nat then
    String BSLASH ("u00" ++ String (hex_digit (n / 16))
                              (String (hex_digit (n mod 16)) ""))
  else String c "".

Fixpoint escape (s : string) : string :=
  match s with
  | "" => ""
  | String c s' => escape_char c ++ escape s'
  end.

Definition JSON_quote (s : string) : string := dq ++ escape s ++ dq.

(** SerializeJSONProperty on a property value: [undefined] has no text. *)
Definition JSON_property (v : value) : option string :=
  match v with
  | VUndefined => None
  | VString s => Some (JSON_quote s)
  end.

(** The members of SerializeJSONObject: properties without a text are
    skipped. *)
Fixpoint JSON_members (o : object) : list string :=
  match o with
  | [] => []
  | (k, v) :: o' =>
      match JSON_property v with
      | Some t => (JSON_quote k ++ ":" ++ " " ++ t) :: JSON_members o'
      | None => JSON_members o'
      end
  end.

Definition gap4 : string := "    ".

Definition JSON_stringify (o : object) : string :=
  match JSON_members o with
  | [] => "{}"
  | ms => "{" ++ nl ++ gap4 ++ concat ("," ++ nl ++ gap4) ms ++ nl ++ "}"
  end.

(** ** The key-unquoting step

    The global regular-expression replacement applied to the text of
    [JSON.stringify].  The pattern is a double quote, one or more
    characters other than the two parentheses and the double quote
    (captured), a double quote and a colon; the replacement is the captured
    group and a colon. *)

Definition in_class (c : ascii) : bool :=
  negb (Ascii.eqb c "(" || Ascii.eqb c ")" || Ascii.eqb c DQ)%char.

(** The longest prefix of class characters, and what follows it. *)
Fixpoint span_class (s : string) : string * string :=
  match s with
  | "" => ("", "")
  | String c s' =>
      if in_class c then
        let (g, r) := span_class s' in (String c g, r)
      else ("", s)
  end.

(** A match of the pattern at the start of [s]: the captured group and the
    text after the match.  The class excludes the double quote, so only the
    longest run can be followed by one: backtracking never finds a shorter
    match. *)
Definition match_here (s : string) : option (string * string) :=
  match s with
  | String c s1 =>
      if Ascii.eqb c DQ then
        match span_class s1 with
        | (String g0 g, String c2 (String c3 s3)) =>
            if Ascii.eqb c2 DQ && Ascii.eqb c3 ":"%char
            then Some (String g0 g, s3) else None
        | _ => None
        end
      else None
  | "" => None
  end.

Definition inspect {A : Type} (a : A) : {b : A | a = b} := exist _ a eq_refl.

(** The global replacement scans left to right; after a match it resumes
    behind it, otherwise it copies one character and moves on. *)
Equations? unquote_keys (s : string) : string by wf (length s) lt :=
  unquote_keys "" := "";
  unquote_keys (String c s') with inspect (match_here (String c s')) := {
    | exist _ (Some (g, r)) E => g ++ ":" ++ unquote_keys r;
    | exist _ None _ => String c (unquote_keys s') }.
Proof.
  (* the text after a match is shorter than the text scanned *)
  assert (L : forall x, length (snd (span_class x)) <= length x).
  { induction x as [|a x IH]; simpl; [lia|].
    destruct (in_class a); simpl; [|lia].
    destruct (span_class x); simpl in *; lia. }
  simpl in E. destruct (Ascii.eqb c DQ); [|discriminate].
  specialize (L s').
  destruct (span_class s') as [[|g0 g'] [|c2 [|c3 s3]]]; try discriminate.
  destruct (_ && _); [|discriminate].
  inversion E; subst; simpl in *; lia.
Qed.

(** ** The process and its collaborators

    What a run observes of the outside is fixed by a [World]; what it does
    to the outside is the list of [event]s it emits, in order.  A [World]
    describes a process whose module has loaded, so [package.json] was
    found in the working directory. *)

(** The error object of a child process that did not succeed. *)
Record exec_error : Type := {
  exit_code : nat;
  error_stdout : string;
  error_stderr : string
}.

(** Promisified [child_process.exec]: the promise resolves to
    [{ stdout, stderr }] when the command exits with code 0 and rejects
    with the error object otherwise. *)
Inductive exec_result : Type :=
| Resolved (stdout stderr : string)
| Rejected (err : exec_error).

Record World : Type := {
  args : list string;                    (* process.argv.slice(2) *)
  cwd : string;                          (* process.cwd() *)
  package_version : value;               (* package.version *)
  exec : string -> exec_result;          (* outcome of a shell command *)
  now : string;                          (* moment().format(...) *)
  writable : string -> bool              (* can fs.writeFile write there *)
}.

(** The recognised command-line options. *)
Definition opts : list string :=
  [ "--help"; "--init"; "--no-hash"; "--no-user"; "--no-version";
    "--no-time" ].

(** The four [signale] loggers the script uses. *)
Inductive severity : Type := Start | Info | Success | Error.

Inductive logarg : Type :=
| LText (s : string)
| LObject (o : object).

Inductive event : Type :=
| Log (sev : severity) (payload : list logarg)
| Exec (cmd : string)
| WriteFile (path data : string) (ok : bool).

(** What a JavaScript [throw] (or a rejected promise) carries. *)
Inductive exn : Type :=
| ThrownString (msg : string)
| ExecError (err : exec_error)
| FsError (path : string).

Inductive outcome (A : Type) : Type :=
| Return (a : A)
| Throw (e : exn).
Arguments Return {A} a.
Arguments Throw {A} e.

(** A computation emits events and then returns or throws. *)
Definition M (A : Type) : Type := (list event * outcome A)%type.

Definition ret {A} (a : A) : M A := ([], Return a).

Definition throw {A} (e : exn) : M A := ([], Throw e).

Definition emit (e : event) : M unit := ([e], Return tt).

Definition bind {A B} (m : M A) (f : A -> M B) : M B :=
  match m with
  | (t, Return a) => let (t', r) := f a in ((t ++ t')%list, r)
  | (t, Throw e) => (t, Throw e)
  end.

(** [try { m } catch { h }] *)
Definition try_catch {A} (m : M A) (h : M A) : M A :=
  match m with
  | (t, Return a) => (t, Return a)
  | (t, Throw _) => let (t', r) := h in ((t ++ t')%list, r)
  end.

Notation "x <- m ;; k" := (bind m (fun x => k))
  (at level 61, m at next level, right associativity).
Notation "' pat <- m ;; k" := (bind m (fun x => let 'pat := x in k))
  (at level 61, pat pattern, m at next level, right associativity).
Notation "m ;; k" := (bind m (fun _ => k))
  (at level 61, right associativity).

Definition trace {A} (m : M A) : list event := fst m.
Definition result {A} (m : M A) : outcome A := snd m.

Definition signale (sev : severity) (payload : list logarg) : M unit :=
  emit (Log sev payload).

Definition is_exec (e : event) : bool :=
  match e with Exec _ => true | _ => false end.

Definition is_write (e : event) : bool :=
  match e with WriteFile _ _ _ => true | _ => false end.

Section Script.

Variable w : World.

Definition exec_cmd (cmd : string) : M (string * string) :=
  emit (Exec cmd) ;;
  match exec w cmd with
  | Resolved stdout stderr => ret (stdout, stderr)
  | Rejected err => throw (ExecError err)
  end.

Definition fs_writeFile (path data : string) : M unit :=
  if writable w path
  then emit (WriteFile path data true)
  else emit (WriteFile path data false) ;; throw (FsError path).

(** *** Get relevant build information *)

Definition getGitUser : M value :=
  '(stdout, stderr) <- exec_cmd "git config user.name" ;;
  if truthy stderr then
    signale Error [LText "Error getting git user, skipping..."] ;;
    ret VUndefined
  else
    signale Success [LText "Found git user:"; LText (replace nl "" stdout)] ;;
    ret (VString (replace nl "" stdout)).

Definition getCommitHash : M value :=
  '(stdout, stderr) <- exec_cmd "git rev-parse --short HEAD" ;;
  if truthy stderr then
    signale Error [LText "Error getting latest commit hash, skipping..."] ;;
    ret VUndefined
  else
    signale Success [LText "Found commit hash:"; LText (replace nl "" stdout)] ;;
    ret (VString (replace nl "" stdout)).

(** [args.map(arg => { if (!opts.includes(arg)) throw ... })]: the
    callback runs on the arguments in order and the first throw ends the
    traversal. *)
Fixpoint check_args (l : list string) : M unit :=
  match l with
  | [] => ret tt
  | arg :: l' =>
      (if negb (includes opts arg) then
         throw (ThrownString
                  ("Error: Unknown arg " ++ dq ++ arg ++ dq ++
                   ", please re-check arguments before running the tool again!"))
       else ret tt) ;;
      check_args l'
  end.

Definition buildInfo : M unit :=
  signale Start [LText "Collecting build information..."] ;;
  (* Check provided args if they exist *)
  check_args (args w) ;;
  (* Object we store build info in *)
  let build : object := [] in
  build <- (if negb (includes (args w) "--no-hash")
            then v <- getCommitHash ;; ret (set_prop build "hash" v)
            else ret build) ;;
  build <- (if negb (includes (args w) "--no-user")
            then v <- getGitUser ;; ret (set_prop build "user" v)
            else ret build) ;;
  let build := if negb (includes (args w) "--no-version")
               then set_prop build "version" (package_version w)
               else build in
  let build := if negb (includes (args w) "--no-time")
               then set_prop build "timestamp" (VString (now w))
               else build in
  signale Info [LObject build] ;;
  (* Path we write the file to *)
  let exportPath := cwd w ++ "/src/build.ts" in
  (* Try writing file, if it fails, display error message *)
  try_catch
    (fs_writeFile exportPath
       ("// Angular build information, automatically generated by `angular-build-info`" ++ nl ++
        "export const buildInfo = " ++
        unquote_keys (JSON_stringify build) ++
        ";" ++ nl) ;;
     signale Success
       [LText ("Saved build information to `" ++ exportPath ++ "`")])
    (signale Error
       [LText ("An error occured writing to `" ++ exportPath ++
               "`, does the path exist?")]).

Definition init : M unit :=
  (* Path we write the file to *)
  let exportPath := cwd w ++ "/src/build.ts" in
  signale Info [LText "Welcome to `angular-build-info`!"] ;;
  signale Info
    [LText ("We will now create a boilerplate `build.ts` file in `" ++
            exportPath ++
            "` and fill it with basic information so you can start implementing it in your front-end.")] ;;
  signale Info
    [LText "If you wish for more info on how to implement the provided info in your Angular app, feel free to check out the main repo over at https://github.com/4dams/angular-build-info"] ;;
  signale Start [LText "Creating `build.ts` file..."] ;;
  let template : object :=
    [ ("user", VString "Octocat");
      ("hash", VString "1e872b5");
      ("version", VString "1.0.0");
      ("timestamp", VString (now w)) ] in
  (* Try writing file, if it fails, display error message *)
  try_catch
    (fs_writeFile exportPath
       ("// Angular build information, automatically generated by `angular-build-info`" ++ nl ++
        "export const buildInfo = " ++
        unquote_keys (JSON_stringify template) ++
        ";" ++ nl) ;;
     signale Success [LText "Successfully created `build.ts` file!"] ;;
     signale Info
       [LText "You should now modify your build/deploy scripts in your `package.json` file to run this script every time before your Angular app is built. An example would be:"] ;;
     signale Info
       [LText ("[...] " ++ dq ++ "build" ++ dq ++ ": " ++ dq ++
               "build-info && ng build --prod" ++ dq ++ ", [...]")] ;;
     signale Info
       [LText "Again, you can find more info on implementing this tool on the main repo."])
    (signale Error
       [LText ("An error occured writing to `" ++ exportPath ++
               "`, does the path exist?")]).

Definition displayManual : M unit :=
  signale Info [LText "Welcome to `angular-build-info`!"] ;;
  signale Info [LText ""] ;;
  signale Info [LText "--help          Displays this message"] ;;
  signale Info [LText "--init          Creates template `build.ts` file so you can start implementing it"] ;;
  signale Info [LText "--no-hash       Will not add latest commit hash to final `build.ts`"] ;;
  signale Info [LText "--no-user       Will not add git username to final `build.ts`"] ;;
  signale Info [LText ("--no-version   " ++ String NBSP "Will not add version from `package.json` to `build.ts`")] ;;
  signale Info [LText "--no-time       Will not add timestamp to final `build.ts`"].

(** Main function we run upon starting the script *)
Definition start : M unit :=
  if includes (args w) "--init" then init
  else if includes (args w) "--help" then displayManual
  else buildInfo.

End Script.

(** * Vocabulary of the properties

    Names for the parts of the script and for the shapes of text the
    properties speak about. *)

Arguments includes : simpl never.
Arguments replace : simpl never.
Arguments JSON_stringify : simpl never.
Arguments unquote_keys : simpl never.

(** ** Arguments and lookups *)

Definition unknown (a : string) : bool := negb (includes opts a).

Definition user_cmd : string := "git config user.name".
Definition hash_cmd : string := "git rev-parse --short HEAD".

(** The events a lookup emits: the command and one log line. *)
Definition is_lookup_event (e : event) : bool :=
  match e with
  | Exec _ | Log Error _ | Log Success _ => true
  | _ => false
  end.


(** Events before the object is logged: the start line and the lookups. *)
Definition is_prelude_event (e : event) : bool :=
  match e with
  | Log Start _ => true
  | _ => is_lookup_event e
  end.

(** ** The parts of [buildInfo] and [init] *)

(** The assembly of the build object. *)
Definition assemble (w : World) : M object :=
  let build : object := [] in
  build <- (if negb (includes (args w) "--no-hash")
            then v <- getCommitHash w ;; ret (set_prop build "hash" v)
            else ret build) ;;
  build <- (if negb (includes (args w) "--no-user")
            then v <- getGitUser w ;; ret (set_prop build "user" v)
            else ret build) ;;
  let build := if negb (includes (args w) "--no-version")
               then set_prop build "version" (package_version w)
               else build in
  let build := if negb (includes (args w) "--no-time")
               then set_prop build "timestamp" (VString (now w))
               else build in
  ret build.

(** The object [assemble] builds from the two lookup values. *)
Definition record_of (w : World) (hv uv : value) : object :=
  ((if includes (args w) "--no-hash" then [] else [("hash", hv)]) ++
   (if includes (args w) "--no-user" then [] else [("user", uv)]) ++
   (if includes (args w) "--no-version" then []
    else [("version", package_version w)]) ++
   (if includes (args w) "--no-time" then []
    else [("timestamp", VString (now w))]))%list.

(** [hv] and [uv] are what the lookups that are issued return. *)
Definition lookups_of (w : World) (hv uv : value) : Prop :=
  (includes (args w) "--no-hash" = false ->
   result (getCommitHash w) = Return hv) /\
  (includes (args w) "--no-user" = false ->
   result (getGitUser w) = Return uv).

(** The fields and the flag that suppresses each, in assembly order. *)
Definition fields : list (string * string) :=
  [ ("hash", "--no-hash"); ("user", "--no-user");
    ("version", "--no-version"); ("timestamp", "--no-time") ].

Definition exportPath (w : World) : string := cwd w ++ "/src/build.ts".

Definition banner : string :=
  "// Angular build information, automatically generated by `angular-build-info`".

(** The text written for an object. *)
Definition file_text (o : object) : string :=
  banner ++ nl ++ "export const buildInfo = " ++
  unquote_keys (JSON_stringify o) ++ ";" ++ nl.

Definition write_error (w : World) : event :=
  Log Error [LText ("An error occured writing to `" ++ exportPath w ++
                    "`, does the path exist?")].

(** The events from the write on: the attempt and what is logged after. *)
Definition emitted (w : World) (o : object) (after : list event)
  : list event :=
  if writable w (exportPath w)
  then WriteFile (exportPath w) (file_text o) true :: after
  else [WriteFile (exportPath w) (file_text o) false; write_error w].

Definition saved (w : World) : list event :=
  [Log Success [LText ("Saved build information to `" ++ exportPath w ++ "`")]].

Definition template (w : World) : object :=
  [ ("user", VString "Octocat");
    ("hash", VString "1e872b5");
    ("version", VString "1.0.0");
    ("timestamp", VString (now w)) ].

Definition welcome (w : World) : list event :=
  [ Log Info [LText "Welcome to `angular-build-info`!"];
    Log Info
      [LText ("We will now create a boilerplate `build.ts` file in `" ++
              exportPath w ++
              "` and fill it with basic information so you can start implementing it in your front-end.")];
    Log Info
      [LText "If you wish for more info on how to implement the provided info in your Angular app, feel free to check out the main repo over at https://github.com/4dams/angular-build-info"];
    Log Start [LText "Creating `build.ts` file..."] ].

Definition created : list event :=
  [ Log Success [LText "Successfully created `build.ts` file!"];
    Log Info
      [LText "You should now modify your build/deploy scripts in your `package.json` file to run this script every time before your Angular app is built. An example would be:"];
    Log Info
      [LText ("[...] " ++ dq ++ "build" ++ dq ++ ": " ++ dq ++
              "build-info && ng build --prod" ++ dq ++ ", [...]")];
    Log Info
      [LText "Again, you can find more info on implementing this tool on the main repo."] ].

Definition has_value (kv : string * value) : bool :=
  match snd kv with
  | VUndefined => false
  | VString _ => true
  end.

(** ** Shapes of text *)

(** Characters of an identifier: letters, digits, [_] and [$]. *)
Definition ident_char (c : ascii) : bool :=
  let n := nat_of_ascii c in
  ((48 <=? n) && (n <=? 57) || (65 <=? n) && (n <=? 90) ||
   (97 <=? n) && (n <=? 122) || (n =? 95) || (n =? 36))%nat.

Fixpoint all_chars (p : ascii -> bool) (s : string) : bool :=
  match s with
  | "" => true
  | String c s' => p c && all_chars p s'
  end.

Definition identifier (k : string) : bool :=
  match k with
  | "" => false
  | _ => all_chars ident_char k
  end.

Definition not_dq (c : ascii) : bool := negb (Ascii.eqb c DQ).

(** [no_dq s]: no double quote occurs in [s]. *)
Definition no_dq (s : string) : bool := all_chars not_dq s.

Definition starts_with_colon (s : string) : bool :=
  match s with
  | String c _ => Ascii.eqb c ":"%char
  | "" => false
  end.

(** What may follow a member: the closing quote of its value starts no
    match, and no colon comes right behind it. *)
Definition inert_tail (t : string) : Prop :=
  starts_with_colon t = false /\ match_here (String DQ t) = None.

(** A member as [JSON.stringify] writes it, and as the file shows it. *)
Definition member (kv : string * string) : string :=
  JSON_quote (fst kv) ++ ":" ++ " " ++ JSON_quote (snd kv).

Definition bare_member (kv : string * string) : string :=
  fst kv ++ ":" ++ " " ++ JSON_quote (snd kv).

Definition clean_field (kv : string * string) : bool :=
  identifier (fst kv) && no_dq (snd kv).

Definition sep : string := "," ++ nl ++ gap4.

(** The string fields of an object, in order. *)
Fixpoint string_fields (o : object) : list (string * string) :=
  match o with
  | [] => []
  | (k, VString s) :: o' => (k, s) :: string_fields o'
  | (_, VUndefined) :: o' => string_fields o'
  end.

(** The record literal with bare keys: one line per string field, indented
    by four spaces, in the order of the object. *)
Definition render (o : object) : string :=
  match string_fields o with
  | [] => "{}"
  | fs => "{" ++ nl ++ gap4 ++ concat sep (map bare_member fs) ++ nl ++ "}"
  end.

(** ** Sample worlds *)

Definition git_answers (user_out user_err hash_out hash_err : string)
  : string -> exec_result :=
  fun cmd =>
    if cmd =? user_cmd then Resolved user_out user_err
    else if cmd =? hash_cmd then Resolved hash_out hash_err
    else Rejected {| exit_code := 127; error_stdout := "";
                     error_stderr := "command not found" |}.

(** A project at [/project], version 2.3.1, user Jane Doe at commit
    abc1234, with a writable [src] folder. *)
Definition project (a : list string) : World :=
  {| args := a;
     cwd := "/project";
     package_version := VString "2.3.1";
     exec := git_answers ("Jane Doe" ++ nl) "" ("abc1234" ++ nl) "";
     now := "November 02, 2026 19:49:00";
     writable := fun _ => true |}.

(** The same project with another answer to [git config user.name]. *)
Definition project_user (user_out user_err : string) : World :=
  {| args := [];
     cwd := "/project";
     package_version := VString "2.3.1";
     exec := git_answers user_out user_err ("abc1234" ++ nl) "";
     now := "November 02, 2026 19:49:00";
     writable := fun _ => true |}.

(** The same project without a [src] folder. *)
Definition project_no_src (a : list string) : World :=
  {| args := a;
     cwd := "/project";
     package_version := VString "2.3.1";
     exec := git_answers ("Jane Doe" ++ nl) "" ("abc1234" ++ nl) "";
     now := "November 02, 2026 19:49:00";
     writable := fun _ => false |}.

(** A folder that is no git repository, and no user name configured: both
    commands exit with a non-zero code. *)
Definition no_git : World :=
  {| args := [];
     cwd := "/project";
     package_version := VString "2.3.1";
     exec := fun cmd =>
       if cmd =? user_cmd
       then Rejected {| exit_code := 1; error_stdout := "";
                        error_stderr := "" |}
       else Rejected {| exit_code := 128; error_stdout := "";
                        error_stderr :=
                          "fatal: not a git repository (or any of the parent directories): .git" ++ nl |};
     now := "November 02, 2026 19:49:00";
     writable := fun _ => true |}.

(** ** Further vocabulary *)

(** [s] without its double quotes. *)
Fixpoint strip_dq (s : string) : string :=
  match s with
  | "" => ""
  | String c s' =>
      if Ascii.eqb c DQ then strip_dq s' else String c (strip_dq s')
  end.

(** [no_dq_colon s]: no double quote in [s] is directly followed by a
    colon. *)
Fixpoint no_dq_colon (s : string) : bool :=
  match s with
  | "" => true
  | String c s' =>
      negb (Ascii.eqb c DQ && starts_with_colon s') && no_dq_colon s'
  end.

(** [first_dq_then_colon s]: the first double quote of [s] is directly
    followed by a colon. *)
Fixpoint first_dq_then_colon (s : string) : bool :=
  match s with
  | "" => false
  | String c s' =>
      if Ascii.eqb c DQ then starts_with_colon s'
      else first_dq_then_colon s'
  end.

(** What may follow the closing quote of a value. *)
Definition calm_tail (t : string) : Prop :=
  starts_with_colon t = false /\ first_dq_then_colon t = false.

Definition verbatim_field (kv : string * string) : bool :=
  identifier (fst kv) && no_dq_colon (snd kv).

(** The world [w] started with the arguments [a]. *)
Definition with_args (w : World) (a : list string) : World :=
  {| args := a;
     cwd := cwd w;
     package_version := package_version w;
     exec := exec w;
     now := now w;
     writable := writable w |}.

(** The commands of the lookups that are not suppressed, in order. *)
Definition expected_cmds (w : World) : list event :=
  ((if includes (args w) "--no-hash" then [] else [Exec hash_cmd]) ++
   (if includes (args w) "--no-user" then [] else [Exec user_cmd]))%list.

(** * Lemmas *)

(** ** Strings *)

Lemma append_assoc (a b c : string) : (a ++ b) ++ c = a ++ (b ++ c).
Proof. induction a as [|x a IH]; simpl; [reflexivity | now rewrite IH]. Qed.

Lemma append_nil_r (a : string) : a ++ "" = a.
Proof. induction a as [|x a IH]; simpl; [reflexivity | now rewrite IH]. Qed.

Lemma all_chars_app p a b :
  all_chars p (a ++ b) = all_chars p a && all_chars p b.
Proof.
  induction a as [|x a IH]; simpl; [reflexivity|].
  now rewrite IH, andb_assoc.
Qed.

Lemma replace_unfold pat rep s :
  replace pat rep s =
  if prefix pat s then rep ++ drop (length pat) s
  else match s with
       | "" => ""
       | String c s' => String c (replace pat rep s')
       end.
Proof. destruct s; reflexivity. Qed.

Lemma prefix_nl c s : prefix nl (String c s) = Ascii.eqb LF c.
Proof.
  unfold nl. cbn [prefix]. destruct (ascii_dec LF c) as [E|N].
  - subst c. rewrite Ascii.eqb_refl. now destruct s.
  - symmetry. now apply Ascii.eqb_neq.
Qed.

(** When the output is one line, the value is that line without its line
    feed. *)
Lemma replace_single_newline s :
  contains nl s = false -> replace nl "" (s ++ nl) = s.
Proof.
  induction s as [|c s IH]; [reflexivity|].
  cbn [contains append]. rewrite prefix_nl. intros H.
  apply orb_false_elim in H as [Hc Hs].
  rewrite replace_unfold, prefix_nl, Hc. f_equal. now apply IH.
Qed.

Lemma concat_head s m ms : exists r, concat s (m :: ms) = m ++ r.
Proof.
  destruct ms; simpl; [exists ""; now rewrite append_nil_r | eauto].
Qed.

Lemma existsb_find {A} (p : A -> bool) l :
  existsb p l = true -> exists x, find p l = Some x /\ In x l /\ p x = true.
Proof.
  induction l as [|a l IH]; simpl; [discriminate|].
  destruct (p a) eqn:Pa.
  - intros _. exists a. auto.
  - simpl. intros H. destruct (IH H) as (x & F & I & P). exists x. auto.
Qed.

(** ** The key-unquoting scan *)

Lemma unquote_keys_step c s :
  unquote_keys (String c s) =
  match match_here (String c s) with
  | Some (g, r) => g ++ ":" ++ unquote_keys r
  | None => String c (unquote_keys s)
  end.
Proof.
  rewrite unquote_keys_equation_2. unfold inspect.
  assert (H : forall m (E : match_here (String c s) = m),
             unquote_keys_unfold_clause_2 c s (exist _ m E) =
             match m with
             | Some (g, r) => g ++ ":" ++ unquote_keys r
             | None => String c (unquote_keys s)
             end).
  { intros [[g r]|] E; reflexivity. }
  apply H.
Qed.

Lemma ident_char_facts c :
  ident_char c = true ->
  in_class c = true /\ escape_char c = String c "" /\
  not_dq c = true /\ Ascii.eqb c ":"%char = false.
Proof.
  destruct c as [[] [] [] [] [] [] [] []]; intros H;
    try discriminate H; repeat split.
Qed.

Lemma escape_char_no_dq c : not_dq c = true -> no_dq (escape_char c) = true.
Proof.
  destruct c as [[] [] [] [] [] [] [] []]; intros H;
    try discriminate H; reflexivity.
Qed.

Lemma escape_no_dq s : no_dq s = true -> no_dq (escape s) = true.
Proof.
  unfold no_dq. induction s as [|c s IH]; simpl; [reflexivity|].
  intros H. apply andb_prop in H as [Hc Hs].
  rewrite all_chars_app, IH by assumption.
  pose proof (escape_char_no_dq c Hc) as E. unfold no_dq in E.
  now rewrite E.
Qed.

Lemma escape_ident k : all_chars ident_char k = true -> escape k = k.
Proof.
  induction k as [|c k IH]; simpl; [reflexivity|].
  intros H. apply andb_prop in H as [Hc Hk].
  destruct (ident_char_facts c Hc) as (_ & E & _).
  now rewrite E, IH.
Qed.

Lemma match_here_not_dq c s : not_dq c = true -> match_here (String c s) = None.
Proof.
  unfold not_dq, match_here. now destruct (Ascii.eqb c DQ).
Qed.

(** Text without a double quote is copied unchanged. *)
Lemma unquote_keys_copy p s :
  no_dq p = true -> unquote_keys (p ++ s) = p ++ unquote_keys s.
Proof.
  unfold no_dq. induction p as [|c p IH]; simpl; [reflexivity|].
  intros H. apply andb_prop in H as [Hc Hp].
  now rewrite unquote_keys_step, (match_here_not_dq c _ Hc), IH.
Qed.

Lemma span_class_ident k c r :
  all_chars ident_char k = true -> in_class c = false ->
  span_class (k ++ String c r) = (k, String c r).
Proof.
  intros Hk Hc. induction k as [|x k IH]; simpl.
  - now rewrite Hc.
  - simpl in Hk. apply andb_prop in Hk as [Hx Hk].
    destruct (ident_char_facts x Hx) as (Cx & _).
    now rewrite Cx, (IH Hk).
Qed.

(** A quoted identifier followed by a colon is a match. *)
Lemma unquote_keys_key k s :
  identifier k = true ->
  unquote_keys (String DQ (k ++ String DQ (String ":" s))) =
  k ++ ":" ++ unquote_keys s.
Proof.
  intros Hk. rewrite unquote_keys_step.
  destruct k as [|k0 k]; [discriminate|]. simpl in Hk.
  unfold match_here. rewrite Ascii.eqb_refl.
  rewrite (span_class_ident (String k0 k) DQ (String ":" s) Hk eq_refl).
  reflexivity.
Qed.

(** Scanning a run without a double quote stops at the double quote behind
    it or at a parenthesis before it. *)
Lemma span_class_stop body rest g r :
  no_dq body = true ->
  span_class (body ++ String DQ rest) = (g, r) ->
  r = String DQ rest \/
  exists c r', r = String c r' /\ Ascii.eqb c DQ = false.
Proof.
  unfold no_dq. revert g r.
  induction body as [|x body IH]; simpl; intros g r H E.
  - inversion E; subst. now left.
  - apply andb_prop in H as [Hx Hb].
    destruct (in_class x).
    + destruct (span_class (body ++ String DQ rest)) as [g1 r1] eqn:S1.
      inversion E; subst. apply (IH g1 r); auto.
    + inversion E; subst. right. exists x, (body ++ String DQ rest).
      split; [reflexivity|]. unfold not_dq in Hx.
      now destruct (Ascii.eqb x DQ).
Qed.

(** The opening quote of a value that holds no double quote starts no
    match, unless a colon follows its closing quote. *)
Lemma match_here_value body rest :
  no_dq body = true -> starts_with_colon rest = false ->
  match_here (String DQ (body ++ String DQ rest)) = None.
Proof.
  intros Hb Hr. unfold match_here. rewrite Ascii.eqb_refl.
  destruct (span_class (body ++ String DQ rest)) as [g r] eqn:S1.
  destruct (span_class_stop body rest g r Hb S1) as [-> | (c & r' & -> & Hc)].
  - destruct g; [reflexivity|]. destruct rest as [|c3 s3]; [reflexivity|].
    simpl in Hr. rewrite Hr, andb_false_r. reflexivity.
  - destruct g; [reflexivity|]. destruct r'; [reflexivity|].
    now rewrite Hc.
Qed.

Lemma inert_tail_close : inert_tail (nl ++ "}").
Proof. split; reflexivity. Qed.

Lemma inert_tail_next k x :
  identifier k = true ->
  inert_tail ("," ++ nl ++ gap4 ++ String DQ (k ++ x)).
Proof.
  intros Hk. split; [reflexivity|].
  destruct k as [|k0 k]; [discriminate|]. simpl in Hk.
  apply andb_prop in Hk as [H0 _].
  destruct (ident_char_facts k0 H0) as (_ & _ & _ & Hcolon).
  unfold match_here. simpl. now rewrite Hcolon.
Qed.

Lemma unquote_keys_member kv t :
  clean_field kv = true -> inert_tail t ->
  unquote_keys (member kv ++ t) = bare_member kv ++ unquote_keys t.
Proof.
  destruct kv as [k v]. unfold clean_field, member, bare_member, JSON_quote.
  simpl fst; simpl snd. intros H [Ht1 Ht2].
  apply andb_prop in H as [Hk Hv].
  assert (Ek : escape k = k).
  { destruct k; [discriminate|]. now apply escape_ident. }
  rewrite Ek. unfold dq.
  repeat rewrite append_assoc. simpl.
  repeat rewrite append_assoc. simpl.
  rewrite (unquote_keys_key k _ Hk).
  f_equal. simpl. f_equal.
  rewrite unquote_keys_step, (match_here_not_dq " " _ eq_refl).
  f_equal.
  rewrite unquote_keys_step, (match_here_value _ _ (escape_no_dq _ Hv) Ht1).
  f_equal.
  rewrite (unquote_keys_copy _ _ (escape_no_dq _ Hv)). f_equal.
  now rewrite unquote_keys_step, Ht2.
Qed.

Lemma member_starts kv :
  exists x, member kv = String DQ (escape (fst kv) ++ x).
Proof.
  unfold member, JSON_quote, dq. simpl. rewrite append_assoc. eauto.
Qed.

Lemma inert_tail_members f fs z :
  identifier (fst f) = true ->
  inert_tail (sep ++ concat sep (map member (f :: fs)) ++ z).
Proof.
  intros Hk.
  assert (E : escape (fst f) = fst f).
  { destruct (fst f); [discriminate|]. now apply escape_ident. }
  destruct (concat_head sep (member f) (map member fs)) as [r Er].
  destruct (member_starts f) as [x Ex].
  change (map member (f :: fs)) with (member f :: map member fs).
  rewrite Er, Ex, E.
  replace (sep ++ (String DQ (fst f ++ x) ++ r) ++ z)
    with ("," ++ nl ++ gap4 ++ String DQ (fst f ++ (x ++ r ++ z))).
  - now apply inert_tail_next.
  - unfold sep. simpl. now repeat rewrite append_assoc.
Qed.

(** The members of a clean object, joined and closed, after the scan. *)
Lemma unquote_keys_members f fs :
  forallb clean_field (f :: fs) = true ->
  unquote_keys (concat sep (map member (f :: fs)) ++ nl ++ "}") =
  concat sep (map bare_member (f :: fs)) ++ nl ++ "}".
Proof.
  revert f. induction fs as [|f2 fs IH]; intros f H.
  - simpl in H. rewrite andb_true_r in H.
    change (concat sep (map member [f])) with (member f).
    rewrite (unquote_keys_member f _ H inert_tail_close). reflexivity.
  - simpl in H. apply andb_prop in H as [Hf H].
    change (concat sep (map member (f :: f2 :: fs)))
      with (member f ++ sep ++ concat sep (map member (f2 :: fs))).
    change (concat sep (map bare_member (f :: f2 :: fs)))
      with (bare_member f ++ sep ++
            concat sep (map bare_member (f2 :: fs))).
    repeat rewrite append_assoc.
    assert (Hk2 : identifier (fst f2) = true).
    { apply andb_prop in H as [H2 _]. now apply andb_prop in H2 as [? _]. }
    rewrite unquote_keys_member; [| exact Hf | now apply inert_tail_members].
    f_equal. rewrite (unquote_keys_copy sep _ eq_refl). f_equal.
    apply IH. exact H.
Qed.

Lemma JSON_members_string_fields o :
  JSON_members o = map member (string_fields o).
Proof.
  induction o as [|[k [|s]] o IH]; simpl; [reflexivity | exact IH |].
  now rewrite IH.
Qed.

(** On an object whose string fields have identifier keys and values
    without a double quote, the scan unquotes the keys and nothing else. *)
Lemma unquote_keys_stringify o :
  forallb clean_field (string_fields o) = true ->
  unquote_keys (JSON_stringify o) = render o.
Proof.
  intros H. unfold JSON_stringify, render.
  rewrite JSON_members_string_fields.
  destruct (string_fields o) as [|f fs]; [reflexivity|].
  change (map member (f :: fs)) with (member f :: map member fs).
  cbv iota.
  change (member f :: map member fs) with (map member (f :: fs)).
  change ("," ++ nl ++ gap4) with sep.
  replace ("{" ++ nl ++ gap4 ++ concat sep (map member (f :: fs)) ++ nl ++ "}")
    with (("{" ++ nl ++ gap4) ++ concat sep (map member (f :: fs)) ++ nl ++ "}")
    by reflexivity.
  rewrite (unquote_keys_copy ("{" ++ nl ++ gap4) _ eq_refl).
  now rewrite unquote_keys_members.
Qed.

Lemma clean_fields_split fs :
  forallb (fun kv => identifier (fst kv)) fs = true ->
  forallb (fun kv => no_dq (snd kv)) fs = true ->
  forallb clean_field fs = true.
Proof.
  induction fs as [|f fs IH]; simpl; [reflexivity|].
  intros H1 H2. apply andb_prop in H1 as [K1 K2].
  apply andb_prop in H2 as [V1 V2].
  unfold clean_field at 1. now rewrite K1, V1, IH.
Qed.

(** ** Argument validation *)

Lemma check_args_valid l :
  existsb unknown l = false -> check_args l = ([], Return tt).
Proof.
  induction l as [|a l IH]; simpl; [reflexivity|].
  unfold unknown at 1. destruct (includes opts a); [|discriminate].
  intros H. simpl. now rewrite (IH H).
Qed.

Lemma check_args_unknown l tok :
  find unknown l = Some tok ->
  check_args l =
  ([], Throw (ThrownString
                ("Error: Unknown arg " ++ dq ++ tok ++ dq ++
                 ", please re-check arguments before running the tool again!"))).
Proof.
  induction l as [|a l IH]; simpl; [discriminate|].
  unfold unknown at 1. destruct (includes opts a).
  - intros E. simpl. now rewrite (IH E).
  - intros E; inversion E; subst. reflexivity.
Qed.

(** ** The metadata lookups *)

Lemma getGitUser_cases w :
  match exec w user_cmd with
  | Rejected err => getGitUser w = ([Exec user_cmd], Throw (ExecError err))
  | Resolved so se =>
      getGitUser w =
      if truthy se
      then ([Exec user_cmd;
             Log Error [LText "Error getting git user, skipping..."]],
            Return VUndefined)
      else ([Exec user_cmd;
             Log Success [LText "Found git user:"; LText (replace nl "" so)]],
            Return (VString (replace nl "" so)))
  end.
Proof.
  unfold getGitUser, exec_cmd, user_cmd.
  destruct (exec w "git config user.name") as [so se|err]; [|reflexivity].
  simpl. destruct (truthy se); reflexivity.
Qed.

Lemma getCommitHash_cases w :
  match exec w hash_cmd with
  | Rejected err => getCommitHash w = ([Exec hash_cmd], Throw (ExecError err))
  | Resolved so se =>
      getCommitHash w =
      if truthy se
      then ([Exec hash_cmd;
             Log Error [LText "Error getting latest commit hash, skipping..."]],
            Return VUndefined)
      else ([Exec hash_cmd;
             Log Success [LText "Found commit hash:"; LText (replace nl "" so)]],
            Return (VString (replace nl "" so)))
  end.
Proof.
  unfold getCommitHash, exec_cmd, hash_cmd.
  destruct (exec w "git rev-parse --short HEAD") as [so se|err]; [|reflexivity].
  simpl. destruct (truthy se); reflexivity.
Qed.

Lemma getGitUser_events w :
  forallb is_lookup_event (trace (getGitUser w)) = true.
Proof.
  pose proof (getGitUser_cases w) as H.
  destruct (exec w user_cmd) as [so se|err]; rewrite H; [|reflexivity].
  now destruct (truthy se).
Qed.

Lemma getCommitHash_events w :
  forallb is_lookup_event (trace (getCommitHash w)) = true.
Proof.
  pose proof (getCommitHash_cases w) as H.
  destruct (exec w hash_cmd) as [so se|err]; rewrite H; [|reflexivity].
  now destruct (truthy se).
Qed.

(** ** The runs of [buildInfo] *)

Lemma buildInfo_unfold w :
  buildInfo w =
  match check_args (args w) with
  | (_, Throw e) =>
      ([Log Start [LText "Collecting build information..."]], Throw e)
  | (_, Return _) =>
      match assemble w with
      | (t, Throw e) =>
          (Log Start [LText "Collecting build information..."] :: t, Throw e)
      | (t, Return o) =>
          ((Log Start [LText "Collecting build information..."] :: t) ++
           Log Info [LObject o] :: emitted w o (saved w),
           Return tt)%list
      end
  end.
Proof.
  unfold buildInfo, assemble, emitted, saved, write_error, file_text,
    exportPath, banner, fs_writeFile.
  assert (C : exists r, check_args (args w) = ([], r)).
  { destruct (existsb unknown (args w)) eqn:U.
    - destruct (existsb_find _ _ U) as (x & F & _).
      rewrite (check_args_unknown _ _ F). eauto.
    - rewrite (check_args_valid _ U). eauto. }
  destruct C as [[[]|e] ->]; [|reflexivity].
  destruct (includes (args w) "--no-hash"),
           (includes (args w) "--no-user"),
           (includes (args w) "--no-version"),
           (includes (args w) "--no-time"),
           (getCommitHash w) as [t1 [v1|e1]],
           (getGitUser w) as [t2 [v2|e2]],
           (writable w (cwd w ++ "/src/build.ts"));
    cbn [bind ret signale emit try_catch negb throw app];
    rewrite ?app_nil_r, <- ?app_assoc; reflexivity.
Qed.

Lemma keys_record_of w hv uv :
  keys (record_of w hv uv) =
  map fst (filter (fun fk => negb (includes (args w) (snd fk))) fields).
Proof.
  unfold record_of, fields, keys. cbn [filter snd].
  destruct (includes (args w) "--no-hash"),
           (includes (args w) "--no-user"),
           (includes (args w) "--no-version"),
           (includes (args w) "--no-time"); reflexivity.
Qed.

Lemma assemble_cases w :
  exists t, forallb is_lookup_event t = true /\
    ((exists e, assemble w = (t, Throw e)) \/
     (exists hv uv, assemble w = (t, Return (record_of w hv uv)) /\
                    lookups_of w hv uv)).
Proof.
  pose proof (getCommitHash_events w) as H1.
  pose proof (getGitUser_events w) as H2.
  unfold trace, result, assemble, record_of, lookups_of in *.
  destruct (getCommitHash w) as [t1 r1], (getGitUser w) as [t2 r2].
  cbn [fst] in H1, H2.
  destruct (includes (args w) "--no-hash"),
           (includes (args w) "--no-user"),
           (includes (args w) "--no-version"),
           (includes (args w) "--no-time"),
           r1 as [v1|e1], r2 as [v2|e2];
    cbn [bind ret negb app set_prop String.eqb Ascii.eqb Bool.eqb];
    eexists; (split;
      [| first [ left; eexists; reflexivity
               | right; exists v1, v2; now repeat split
               | right; exists v1, VUndefined; now repeat split
               | right; exists VUndefined, v2; now repeat split
               | right; exists VUndefined, VUndefined; now repeat split ] ]);
    rewrite ?app_nil_r, ?forallb_app, ?H1, ?H2; reflexivity.
Qed.

Lemma getCommitHash_resolved w so se :
  exec w hash_cmd = Resolved so se ->
  exists t v,
    getCommitHash w = (t, Return v) /\
    forallb is_lookup_event t = true /\
    (truthy se = true -> v = VUndefined).
Proof.
  intros E. pose proof (getCommitHash_cases w) as C. rewrite E in C.
  rewrite C. destruct (truthy se); eexists _, _;
    (split; [reflexivity|]); split; try reflexivity; discriminate.
Qed.

Lemma getGitUser_resolved w so se :
  exec w user_cmd = Resolved so se ->
  exists t v,
    getGitUser w = (t, Return v) /\
    forallb is_lookup_event t = true /\
    (truthy se = true -> v = VUndefined).
Proof.
  intros E. pose proof (getGitUser_cases w) as C. rewrite E in C.
  rewrite C. destruct (truthy se); eexists _, _;
    (split; [reflexivity|]); split; try reflexivity; discriminate.
Qed.

(** When every lookup that is issued resolves, the assembly returns. *)
Lemma assemble_issued w :
  (includes (args w) "--no-hash" = false ->
   exists so se, exec w hash_cmd = Resolved so se) ->
  (includes (args w) "--no-user" = false ->
   exists so se, exec w user_cmd = Resolved so se) ->
  exists t hv uv,
    forallb is_lookup_event t = true /\
    (includes (args w) "--no-hash" = false ->
     result (getCommitHash w) = Return hv) /\
    (includes (args w) "--no-user" = false ->
     result (getGitUser w) = Return uv) /\
    assemble w = (t, Return (record_of w hv uv)).
Proof.
  intros R1 R2. unfold assemble, record_of.
  destruct (includes (args w) "--no-hash") eqn:F1;
    destruct (includes (args w) "--no-user") eqn:F2.
  - exists [], VUndefined, VUndefined.
    destruct (includes (args w) "--no-version"),
             (includes (args w) "--no-time");
      (split; [reflexivity|]); (split; [discriminate|]);
      (split; [discriminate|]); reflexivity.
  - destruct (R2 eq_refl) as (so & se & E).
    destruct (getGitUser_resolved w so se E) as (t & v & -> & Ht & _).
    exists t, VUndefined, v.
    destruct (includes (args w) "--no-version"),
             (includes (args w) "--no-time");
      (split; [exact Ht|]); (split; [discriminate|]);
      (split; [reflexivity|]); cbn [bind ret negb app set_prop];
      rewrite ?app_nil_r; reflexivity.
  - destruct (R1 eq_refl) as (so & se & E).
    destruct (getCommitHash_resolved w so se E) as (t & v & -> & Ht & _).
    exists t, v, VUndefined.
    destruct (includes (args w) "--no-version"),
             (includes (args w) "--no-time");
      (split; [exact Ht|]); (split; [reflexivity|]);
      (split; [discriminate|]); cbn [bind ret negb app set_prop];
      rewrite ?app_nil_r; reflexivity.
  - destruct (R1 eq_refl) as (so1 & se1 & E1).
    destruct (R2 eq_refl) as (so2 & se2 & E2).
    destruct (getCommitHash_resolved w so1 se1 E1) as (t1 & v1 & -> & Ht1 & _).
    destruct (getGitUser_resolved w so2 se2 E2) as (t2 & v2 & -> & Ht2 & _).
    exists (t1 ++ t2)%list, v1, v2.
    destruct (includes (args w) "--no-version"),
             (includes (args w) "--no-time");
      (split; [now rewrite forallb_app, Ht1, Ht2|]); (split; [reflexivity|]);
      (split; [reflexivity|]);
      cbn [bind ret negb app set_prop String.eqb Ascii.eqb Bool.eqb];
      rewrite ?app_nil_r; reflexivity.
Qed.

Lemma lookup_prelude t :
  forallb is_lookup_event t = true -> forallb is_prelude_event t = true.
Proof.
  induction t as [|e t IH]; simpl; [reflexivity|].
  intros H. apply andb_prop in H as [He Ht]. rewrite (IH Ht), andb_true_r.
  now destruct e as [[] ?| |].
Qed.

(** A run of [buildInfo] either throws before anything is logged at info
    level or written, or assembles an object, logs it and tries to write
    its text. *)
Lemma buildInfo_shape w :
  (exists t e, buildInfo w = (t, Throw e) /\
               forallb is_prelude_event t = true) \/
  (exists t hv uv,
     buildInfo w =
       ((t ++ Log Info [LObject (record_of w hv uv)] ::
                emitted w (record_of w hv uv) (saved w))%list, Return tt) /\
     forallb is_prelude_event t = true /\
     lookups_of w hv uv).
Proof.
  rewrite buildInfo_unfold.
  destruct (check_args (args w)) as [t0 [[]|e0]].
  - destruct (assemble_cases w) as (t & Ht & [[e E] | (hv & uv & E & K)]);
      rewrite E.
    + left. exists (Log Start [LText "Collecting build information..."] :: t), e.
      split; [reflexivity|]. simpl. now apply lookup_prelude.
    + right.
      exists (Log Start [LText "Collecting build information..."] :: t), hv, uv.
      split; [reflexivity|]. split; [|exact K]. simpl. now apply lookup_prelude.
  - left. eexists _, e0. split; reflexivity.
Qed.

Lemma prelude_event_in t e :
  forallb is_prelude_event t = true -> In e t -> is_prelude_event e = true.
Proof. intros H I. rewrite forallb_forall in H. now apply H. Qed.

Lemma emitted_in w o after e :
  In e (emitted w o after) ->
  e = WriteFile (exportPath w) (file_text o) (writable w (exportPath w)) \/
  (writable w (exportPath w) = true /\ In e after) \/
  (writable w (exportPath w) = false /\ e = write_error w).
Proof.
  unfold emitted. destruct (writable w (exportPath w)); simpl.
  - intros [<- | H]; auto.
  - intros [<- | [<- | []]]; auto.
Qed.

Lemma emitted_failed w o after p d :
  In (WriteFile p d false) (emitted w o after) ->
  forallb (fun e => negb (is_write e)) after = true ->
  p = exportPath w /\
  emitted w o after = [WriteFile p d false; write_error w].
Proof.
  unfold emitted. destruct (writable w (exportPath w)); simpl.
  - intros [H | H] Q; [discriminate H|].
    rewrite forallb_forall in Q. apply Q in H. discriminate H.
  - intros [H | [H | []]] _; [|discriminate H].
    inversion H; subst. split; reflexivity.
Qed.

(** The object a run logs is the one assembled from its lookups. *)
Lemma buildInfo_logged w r :
  In (Log Info [LObject r]) (trace (buildInfo w)) ->
  exists hv uv, r = record_of w hv uv /\ lookups_of w hv uv.
Proof.
  destruct (buildInfo_shape w)
    as [(t & e & -> & P) | (t & hv & uv & -> & P & K)];
    unfold trace; cbn [fst]; intros L.
  - apply (prelude_event_in _ _ P) in L. discriminate L.
  - apply in_app_or in L as [L | [L | L]].
    + apply (prelude_event_in _ _ P) in L. discriminate L.
    + inversion L; subst r. eauto.
    + apply emitted_in in L as [L | [[_ L] | [_ L]]]; try discriminate L.
      simpl in L. destruct L as [L | []]. discriminate L.
Qed.

(** The object logged and the text written in one run belong together. *)
Lemma buildInfo_logged_written w r p d ok :
  In (Log Info [LObject r]) (trace (buildInfo w)) ->
  In (WriteFile p d ok) (trace (buildInfo w)) ->
  p = exportPath w /\ d = file_text r /\ exists hv uv, r = record_of w hv uv.
Proof.
  destruct (buildInfo_shape w)
    as [(t & e & -> & P) | (t & hv & uv & -> & P & _)];
    unfold trace; cbn [fst]; intros L W.
  - apply (prelude_event_in _ _ P) in W. discriminate W.
  - apply in_app_or in L as [L | [L | L]];
      [apply (prelude_event_in _ _ P) in L; discriminate L | |].
    2:{ apply emitted_in in L as [L | [[_ L] | [_ L]]]; try discriminate L.
        simpl in L. destruct L as [L | []]. discriminate L. }
    inversion L; subst r.
    apply in_app_or in W as [W | [W | W]];
      [apply (prelude_event_in _ _ P) in W; discriminate W | discriminate W |].
    apply emitted_in in W as [W | [[_ W] | [_ W]]].
    + inversion W; subst. eauto.
    + simpl in W. destruct W as [W | []]. discriminate W.
    + discriminate W.
Qed.

Lemma record_of_keys_identifiers w hv uv :
  forallb (fun kv => identifier (fst kv)) (string_fields (record_of w hv uv))
  = true.
Proof.
  unfold record_of.
  destruct (includes (args w) "--no-hash"),
           (includes (args w) "--no-user"),
           (includes (args w) "--no-version"),
           (includes (args w) "--no-time"),
           hv, uv, (package_version w); reflexivity.
Qed.

(** ** The scaffold and the manual *)

Lemma init_unfold w :
  init w = ((welcome w ++ emitted w (template w) created)%list, Return tt).
Proof.
  unfold init, welcome, emitted, created, template, file_text, exportPath,
    banner, fs_writeFile.
  destruct (writable w (cwd w ++ "/src/build.ts")); reflexivity.
Qed.

Lemma displayManual_quiet :
  forallb (fun e => negb (is_write e) && negb (is_exec e))
    (trace displayManual) = true /\
  result displayManual = Return tt.
Proof. split; reflexivity. Qed.

(** The text of the scaffold when the timestamp holds no double quote. *)
Lemma template_text w :
  no_dq (now w) = true ->
  unquote_keys (JSON_stringify (template w)) =
  "{" ++ nl ++
  "    user: " ++ dq ++ "Octocat" ++ dq ++ "," ++ nl ++
  "    hash: " ++ dq ++ "1e872b5" ++ dq ++ "," ++ nl ++
  "    version: " ++ dq ++ "1.0.0" ++ dq ++ "," ++ nl ++
  "    timestamp: " ++ JSON_quote (now w) ++ nl ++
  "}".
Proof.
  intros H. rewrite unquote_keys_stringify.
  - unfold render, template, bare_member, JSON_quote. simpl.
    reflexivity.
  - simpl. unfold clean_field. simpl. now rewrite H.
Qed.

(** * The claims *)

(** ** Argument validation (C1) *)

(** C1, counterexample.  With [--init] on the command line an unknown
    token does not abort the run: the scaffold flow runs, writes the file
    and returns. *)
Lemma init_ignores_unknown_arg :
  In "--bogus" (args (project ["--init"; "--bogus"])) /\
  includes opts "--bogus" = false /\
  result (start (project ["--init"; "--bogus"])) = Return tt /\
  existsb is_write (trace (start (project ["--init"; "--bogus"]))) = true.
Proof.
  split; [simpl; auto|]. repeat split; vm_compute; reflexivity.
Qed.

(** C1, as amended.  When neither [--init] nor [--help] is given and some
    argument is outside the recognised set, the run throws the error that
    names the first such argument; the only event before it is the start
    line: no command is executed and no file is written. *)
Theorem unknown_arg_aborts w :
  includes (args w) "--init" = false ->
  includes (args w) "--help" = false ->
  existsb unknown (args w) = true ->
  exists tok,
    find unknown (args w) = Some tok /\
    In tok (args w) /\ includes opts tok = false /\
    start w =
      ([Log Start [LText "Collecting build information..."]],
       Throw (ThrownString
                ("Error: Unknown arg " ++ dq ++ tok ++ dq ++
                 ", please re-check arguments before running the tool again!"))) /\
    existsb is_exec (trace (start w)) = false /\
    existsb is_write (trace (start w)) = false.
Proof.
  intros Hi Hh U.
  destruct (existsb_find _ _ U) as (tok & F & I & P).
  exists tok. split; [exact F|]. split; [exact I|].
  split; [unfold unknown in P; now destruct (includes opts tok)|].
  assert (E : start w =
    ([Log Start [LText "Collecting build information..."]],
     Throw (ThrownString
              ("Error: Unknown arg " ++ dq ++ tok ++ dq ++
               ", please re-check arguments before running the tool again!")))).
  { unfold start. rewrite Hi, Hh, buildInfo_unfold.
    now rewrite (check_args_unknown _ _ F). }
  rewrite E. repeat split.
Qed.

Lemma unknown_arg_aborts_witness :
  exists tok,
    find unknown (args (project ["--no-hash"; "--bogus"; "--wrong"]))
      = Some tok /\
    In tok (args (project ["--no-hash"; "--bogus"; "--wrong"])) /\
    includes opts tok = false /\
    start (project ["--no-hash"; "--bogus"; "--wrong"]) =
      ([Log Start [LText "Collecting build information..."]],
       Throw (ThrownString
                ("Error: Unknown arg " ++ dq ++ tok ++ dq ++
                 ", please re-check arguments before running the tool again!"))) /\
    existsb is_exec
      (trace (start (project ["--no-hash"; "--bogus"; "--wrong"]))) = false /\
    existsb is_write
      (trace (start (project ["--no-hash"; "--bogus"; "--wrong"]))) = false.
Proof.
  apply (unknown_arg_aborts (project ["--no-hash"; "--bogus"; "--wrong"]));
    reflexivity.
Defined.

(** ** Undefined fields in the serialized text (C2) *)

(** C2, counterexample.  When [git config user.name] answers on its error
    channel the object holds [user] with the value [undefined], and the
    text written holds no [user] at all. *)
Lemma undefined_user_not_rendered :
  In (Log Info
        [LObject [("hash", VString "abc1234"); ("user", VUndefined);
                  ("version", VString "2.3.1");
                  ("timestamp", VString "November 02, 2026 19:49:00")]])
     (trace (start (project_user "" ("error: bad config" ++ nl)))) /\
  In (WriteFile "/project/src/build.ts"
        (banner ++ nl ++ "export const buildInfo = {" ++ nl ++
         "    hash: " ++ dq ++ "abc1234" ++ dq ++ "," ++ nl ++
         "    version: " ++ dq ++ "2.3.1" ++ dq ++ "," ++ nl ++
         "    timestamp: " ++ dq ++ "November 02, 2026 19:49:00" ++ dq ++ nl ++
         "};" ++ nl)
        true)
     (trace (start (project_user "" ("error: bad config" ++ nl)))) /\
  contains "user"
    (file_text [("hash", VString "abc1234"); ("user", VUndefined);
                ("version", VString "2.3.1");
                ("timestamp", VString "November 02, 2026 19:49:00")])
  = false.
Proof.
  split; [|split].
  - vm_compute. do 5 right. left. reflexivity.
  - vm_compute. do 6 right. left. reflexivity.
  - vm_compute. reflexivity.
Qed.

(** C2, as amended.  A field whose value is [undefined] is left out of the
    serialized text: the text of an object is the text of the object
    without its undefined fields, and putting an undefined field in front
    changes nothing. *)
Theorem stringify_omits_undefined o :
  JSON_stringify o = JSON_stringify (filter has_value o) /\
  file_text o = file_text (filter has_value o) /\
  (forall k, file_text ((k, VUndefined) :: o) = file_text o).
Proof.
  assert (E : JSON_members o = JSON_members (filter has_value o)).
  { induction o as [|[k [|s]] o IH]; simpl; [reflexivity | exact IH |].
    now rewrite IH. }
  unfold file_text, JSON_stringify. rewrite <- E. repeat split.
Qed.

(** ** The assembled object (C3) *)

(** C3.  When the arguments pass validation and every git command that is
    issued exits with code 0, [buildInfo] assembles an object and logs it.
    The keys of an object [buildInfo] has assembled are the fields whose
    flag is not given, in the order hash, user, version, timestamp; the
    values are the results of the lookups, the package version and the
    timestamp; a lookup that returned [undefined] leaves its key in the
    object, with the value [undefined]. *)
Theorem buildInfo_record w :
  (existsb unknown (args w) = false ->
   (includes (args w) "--no-hash" = false ->
    exists so se, exec w hash_cmd = Resolved so se) ->
   (includes (args w) "--no-user" = false ->
    exists so se, exec w user_cmd = Resolved so se) ->
   exists r, In (Log Info [LObject r]) (trace (buildInfo w))) /\
  (forall r,
     In (Log Info [LObject r]) (trace (buildInfo w)) ->
     keys r =
       map fst (filter (fun fk => negb (includes (args w) (snd fk))) fields) /\
     (includes (args w) "--no-hash" = false ->
      exists hv, result (getCommitHash w) = Return hv /\
                 get_prop r "hash" = Some hv) /\
     (includes (args w) "--no-user" = false ->
      exists uv, result (getGitUser w) = Return uv /\
                 get_prop r "user" = Some uv) /\
     (includes (args w) "--no-version" = false ->
      get_prop r "version" = Some (package_version w)) /\
     (includes (args w) "--no-time" = false ->
      get_prop r "timestamp" = Some (VString (now w))) /\
     (forall so se,
        includes (args w) "--no-hash" = false ->
        exec w hash_cmd = Resolved so se -> truthy se = true ->
        get_prop r "hash" = Some VUndefined) /\
     (forall so se,
        includes (args w) "--no-user" = false ->
        exec w user_cmd = Resolved so se -> truthy se = true ->
        get_prop r "user" = Some VUndefined)).
Proof.
  split.
  { intros V R1 R2.
    destruct (assemble_issued w R1 R2) as (t & hv & uv & Ht & Rh & Ru & E).
    exists (record_of w hv uv).
    rewrite buildInfo_unfold, (check_args_valid _ V), E.
    unfold trace. cbn [fst]. apply in_or_app. right. now left. }
  intros r L.
  destruct (buildInfo_logged w r L) as (hv & uv & -> & Rh & Ru).
  assert (Gh : includes (args w) "--no-hash" = false ->
               get_prop (record_of w hv uv) "hash" = Some hv).
  { intros H. unfold record_of. rewrite H. reflexivity. }
  assert (Gu : includes (args w) "--no-user" = false ->
               get_prop (record_of w hv uv) "user" = Some uv).
  { intros H. unfold record_of. rewrite H.
    destruct (includes (args w) "--no-hash"); reflexivity. }
  split; [apply keys_record_of|].
  split; [intros H; exists hv; auto|].
  split; [intros H; exists uv; auto|].
  split; [|split; [|split]].
  - intros H. unfold record_of. rewrite H.
    destruct (includes (args w) "--no-hash"),
             (includes (args w) "--no-user"); reflexivity.
  - intros H. unfold record_of. rewrite H.
    destruct (includes (args w) "--no-hash"),
             (includes (args w) "--no-user"),
             (includes (args w) "--no-version"); reflexivity.
  - intros so se H Ex T. rewrite (Gh H). f_equal.
    pose proof (getCommitHash_cases w) as C. rewrite Ex, T in C.
    specialize (Rh H). rewrite C in Rh. now inversion Rh.
  - intros so se H Ex T. rewrite (Gu H). f_equal.
    pose proof (getGitUser_cases w) as C. rewrite Ex, T in C.
    specialize (Ru H). rewrite C in Ru. now inversion Ru.
Qed.

Lemma buildInfo_record_witness :
  exists r,
    In (Log Info [LObject r])
       (trace (buildInfo (project_user "" ("error: bad config" ++ nl)))) /\
    keys r = ["hash"; "user"; "version"; "timestamp"] /\
    get_prop r "user" = Some VUndefined.
Proof.
  destruct (proj1 (buildInfo_record
                     (project_user "" ("error: bad config" ++ nl))))
    as [r L].
  - reflexivity.
  - intros _. exists ("abc1234" ++ nl), "". reflexivity.
  - intros _. exists "", ("error: bad config" ++ nl). reflexivity.
  - exists r. split; [exact L|].
    destruct (proj2 (buildInfo_record
                       (project_user "" ("error: bad config" ++ nl))) r L)
      as (K & _ & _ & _ & _ & _ & U).
    split; [exact K|].
    apply (U "" ("error: bad config" ++ nl)); reflexivity.
Defined.

(** ** The lookups (C4, C5) *)

(** C4, at the failing input.  A user name of two lines, Jane and Doe, is
    printed with a line feed after each; only the first line feed is
    removed and the value returned still ends with one. *)
Theorem getGitUser_keeps_trailing_newline :
  getGitUser (project_user ("Jane" ++ nl ++ "Doe" ++ nl) "") =
    ([Exec "git config user.name";
      Log Success [LText "Found git user:"; LText ("JaneDoe" ++ nl)]],
     Return (VString ("JaneDoe" ++ nl))) /\
  ends_with_newline ("JaneDoe" ++ nl) = true.
Proof. split; vm_compute; reflexivity. Qed.

(** C5, at the failing input.  When the git command exits with a non-zero
    code the promise of [exec] rejects: the lookup logs nothing and throws,
    and so does the whole run, before anything is written. *)
Theorem lookup_rejection_propagates :
  getGitUser no_git =
    ([Exec "git config user.name"],
     Throw (ExecError {| exit_code := 1; error_stdout := "";
                         error_stderr := "" |})) /\
  getCommitHash no_git =
    ([Exec "git rev-parse --short HEAD"],
     Throw (ExecError
              {| exit_code := 128; error_stdout := "";
                 error_stderr :=
                   "fatal: not a git repository (or any of the parent directories): .git" ++ nl |})) /\
  start no_git =
    ([Log Start [LText "Collecting build information..."];
      Exec "git rev-parse --short HEAD"],
     Throw (ExecError
              {| exit_code := 128; error_stdout := "";
                 error_stderr :=
                   "fatal: not a git repository (or any of the parent directories): .git" ++ nl |})).
Proof. repeat split; vm_compute; reflexivity. Qed.

(** ** Keys and values in the file (C6) *)

(** C6, at the failing input.  The user name is [say], a quoted [hi], a
    colon and [ok].  [JSON.stringify] escapes the two quotes around [hi];
    the key-unquoting step takes the second of them, the text up to it
    and the colon behind it for a quoted key and removes both quotes, so
    the text written holds another value. *)
Theorem unquote_keys_rewrites_value :
  JSON_stringify [("user", VString ("say " ++ dq ++ "hi" ++ dq ++ ": ok"))] =
    "{" ++ nl ++ "    " ++ dq ++ "user" ++ dq ++ ": " ++
    dq ++ "say \" ++ dq ++ "hi\" ++ dq ++ ": ok" ++ dq ++ nl ++ "}" /\
  unquote_keys
    (JSON_stringify [("user", VString ("say " ++ dq ++ "hi" ++ dq ++ ": ok"))]) =
    "{" ++ nl ++ "    user: " ++ dq ++ "say \hi\: ok" ++ dq ++ nl ++ "}" /\
  In (WriteFile "/project/src/build.ts"
        (banner ++ nl ++ "export const buildInfo = {" ++ nl ++
         "    user: " ++ dq ++ "say \hi\: ok" ++ dq ++ nl ++
         "};" ++ nl)
        true)
     (trace (start
        {| args := ["--no-hash"; "--no-version"; "--no-time"];
           cwd := "/project";
           package_version := VString "2.3.1";
           exec := git_answers ("say " ++ dq ++ "hi" ++ dq ++ ": ok" ++ nl) ""
                     ("abc1234" ++ nl) "";
           now := "November 02, 2026 19:49:00";
           writable := fun _ => true |})).
Proof.
  split; [|split].
  - vm_compute. reflexivity.
  - vm_compute. reflexivity.
  - vm_compute. do 4 right. left. reflexivity.
Qed.

(** ** Write failures (C7) *)

(** C7.  In every run in which the write of the destination file fails,
    the failure is caught: the failed write is followed by one error line
    that names the destination path, nothing comes after it, and the run
    returns normally. *)
Theorem write_failure_recovered w p d :
  In (WriteFile p d false) (trace (start w)) ->
  result (start w) = Return tt /\
  p = cwd w ++ "/src/build.ts" /\
  exists t,
    trace (start w) =
    (t ++ [WriteFile p d false;
           Log Error [LText ("An error occured writing to `" ++ p ++
                             "`, does the path exist?")]])%list.
Proof.
  unfold start.
  destruct (includes (args w) "--init");
    [| destruct (includes (args w) "--help")].
  - rewrite init_unfold. unfold trace, result. cbn [fst snd]. intros H.
    apply in_app_or in H as [H | H].
    + unfold welcome in H. simpl in H.
      repeat (destruct H as [H | H]; [discriminate H|]). destruct H.
    + destruct (emitted_failed _ _ _ _ _ H eq_refl) as [-> E].
      rewrite E. split; [reflexivity|]. split; [reflexivity|].
      exists (welcome w). reflexivity.
  - intros H. simpl in H.
    repeat (destruct H as [H | H]; [discriminate H|]). destruct H.
  - destruct (buildInfo_shape w)
      as [(t & e & -> & P) | (t & hv & uv & -> & P & _)];
      unfold trace, result; cbn [fst snd]; intros H.
    + apply (prelude_event_in _ _ P) in H. discriminate H.
    + apply in_app_or in H as [H | [H | H]];
        [apply (prelude_event_in _ _ P) in H; discriminate H
        | discriminate H |].
      destruct (emitted_failed _ _ _ _ _ H eq_refl) as [-> E].
      rewrite E. split; [reflexivity|]. split; [reflexivity|].
      exists (t ++ [Log Info [LObject (record_of w hv uv)]])%list.
      rewrite <- app_assoc. reflexivity.
Qed.

Lemma write_failure_recovered_witness :
  result (start (project_no_src ["--no-user"])) = Return tt /\
  "/project/src/build.ts" = cwd (project_no_src ["--no-user"]) ++ "/src/build.ts" /\
  exists t,
    trace (start (project_no_src ["--no-user"])) =
    (t ++ [WriteFile "/project/src/build.ts"
             (file_text [("hash", VString "abc1234");
                         ("version", VString "2.3.1");
                         ("timestamp", VString "November 02, 2026 19:49:00")])
             false;
           Log Error [LText ("An error occured writing to `" ++
                             "/project/src/build.ts" ++
                             "`, does the path exist?")]])%list.
Proof.
  apply (write_failure_recovered (project_no_src ["--no-user"])).
  vm_compute. do 4 right. left. reflexivity.
Defined.

(** ** The serialized text (C8) *)

(** C8.  The text written depends on the assembled object only: two runs,
    in any two worlds, that log the same object write the same text,
    namely the fixed comment line, the declaration and the object after
    [JSON.stringify] and the key-unquoting step.  When no string value
    holds a double quote that text is the record literal with one line per
    string field, indented by four spaces, in the order of the object. *)
Theorem file_text_deterministic w1 w2 r p1 d1 ok1 p2 d2 ok2 :
  In (Log Info [LObject r]) (trace (buildInfo w1)) ->
  In (WriteFile p1 d1 ok1) (trace (buildInfo w1)) ->
  In (Log Info [LObject r]) (trace (buildInfo w2)) ->
  In (WriteFile p2 d2 ok2) (trace (buildInfo w2)) ->
  d1 = d2 /\
  d1 = "// Angular build information, automatically generated by `angular-build-info`" ++ nl ++
       "export const buildInfo = " ++ unquote_keys (JSON_stringify r) ++
       ";" ++ nl /\
  (forallb (fun kv => no_dq (snd kv)) (string_fields r) = true ->
   unquote_keys (JSON_stringify r) =
   match string_fields r with
   | [] => "{}"
   | fs => "{" ++ nl ++ "    " ++
           concat ("," ++ nl ++ "    ")
             (map (fun kv => fst kv ++ ": " ++ dq ++ escape (snd kv) ++ dq) fs) ++
           nl ++ "}"
   end).
Proof.
  intros L1 W1 L2 W2.
  destruct (buildInfo_logged_written _ _ _ _ _ L1 W1) as (_ & E1 & hv & uv & R).
  destruct (buildInfo_logged_written _ _ _ _ _ L2 W2) as (_ & E2 & _).
  split; [congruence|]. split; [exact E1|].
  intros Q. apply unquote_keys_stringify.
  apply clean_fields_split; [|exact Q].
  rewrite R. apply record_of_keys_identifiers.
Qed.

Lemma file_text_deterministic_witness :
  file_text [("hash", VString "abc1234"); ("user", VString "Jane Doe");
             ("version", VString "2.3.1")] =
  file_text [("hash", VString "abc1234"); ("user", VString "Jane Doe");
             ("version", VString "2.3.1")] /\
  file_text [("hash", VString "abc1234"); ("user", VString "Jane Doe");
             ("version", VString "2.3.1")] =
    "// Angular build information, automatically generated by `angular-build-info`" ++ nl ++
    "export const buildInfo = " ++
    unquote_keys
      (JSON_stringify [("hash", VString "abc1234"); ("user", VString "Jane Doe");
                       ("version", VString "2.3.1")]) ++
    ";" ++ nl /\
  (forallb (fun kv => no_dq (snd kv))
     (string_fields [("hash", VString "abc1234"); ("user", VString "Jane Doe");
                     ("version", VString "2.3.1")]) = true ->
   unquote_keys
     (JSON_stringify [("hash", VString "abc1234"); ("user", VString "Jane Doe");
                      ("version", VString "2.3.1")]) =
   match string_fields [("hash", VString "abc1234"); ("user", VString "Jane Doe");
                        ("version", VString "2.3.1")] with
   | [] => "{}"
   | fs => "{" ++ nl ++ "    " ++
           concat ("," ++ nl ++ "    ")
             (map (fun kv => fst kv ++ ": " ++ dq ++ escape (snd kv) ++ dq) fs) ++
           nl ++ "}"
   end).
Proof.
  apply (file_text_deterministic
           (project ["--no-time"]) (project_no_src ["--no-time"; "--no-time"])
           [("hash", VString "abc1234"); ("user", VString "Jane Doe");
            ("version", VString "2.3.1")]
           "/project/src/build.ts" _ true "/project/src/build.ts" _ false).
  - vm_compute. do 5 right. left. reflexivity.
  - vm_compute. do 6 right. left. reflexivity.
  - vm_compute. do 5 right. left. reflexivity.
  - vm_compute. do 6 right. left. reflexivity.
Defined.

(** ** Mode selection (C9) *)






(** ** The scaffold flow (C10) *)

(** C10.  With [--init] the run tries to write, to the destination path,
    the fixed comment line and the declaration of a placeholder object
    whose keys come in the order user, hash, version, timestamp (the full
    pipeline assembles hash, user, version, timestamp) with the values
    Octocat, 1e872b5, 1.0.0 and the timestamp of the run.  When the
    timestamp holds no double quote the text is the literal below. *)
Theorem init_writes_template w :
  includes (args w) "--init" = true ->
  (exists ok,
     In (WriteFile (cwd w ++ "/src/build.ts")
           ("// Angular build information, automatically generated by `angular-build-info`" ++ nl ++
            "export const buildInfo = " ++
            unquote_keys
              (JSON_stringify
                 [ ("user", VString "Octocat"); ("hash", VString "1e872b5");
                   ("version", VString "1.0.0");
                   ("timestamp", VString (now w)) ]) ++
            ";" ++ nl)
           ok)
        (trace (start w))) /\
  keys [ ("user", VString "Octocat"); ("hash", VString "1e872b5");
         ("version", VString "1.0.0"); ("timestamp", VString (now w)) ]
    = ["user"; "hash"; "version"; "timestamp"] /\
  map fst fields = ["hash"; "user"; "version"; "timestamp"] /\
  (no_dq (now w) = true ->
   unquote_keys
     (JSON_stringify
        [ ("user", VString "Octocat"); ("hash", VString "1e872b5");
          ("version", VString "1.0.0"); ("timestamp", VString (now w)) ]) =
   "{" ++ nl ++
   "    user: " ++ dq ++ "Octocat" ++ dq ++ "," ++ nl ++
   "    hash: " ++ dq ++ "1e872b5" ++ dq ++ "," ++ nl ++
   "    version: " ++ dq ++ "1.0.0" ++ dq ++ "," ++ nl ++
   "    timestamp: " ++ JSON_quote (now w) ++ nl ++
   "}").
Proof.
  intros Hi. split; [|split; [reflexivity | split; [reflexivity|]]].
  - exists (writable w (exportPath w)).
    unfold start. rewrite Hi, init_unfold. unfold trace. cbn [fst].
    apply in_or_app. right. unfold emitted.
    destruct (writable w (exportPath w)); left; reflexivity.
  - intros Q. apply (template_text w Q).
Qed.

Lemma init_writes_template_witness :
  (exists ok,
     In (WriteFile "/project/src/build.ts"
           ("// Angular build information, automatically generated by `angular-build-info`" ++ nl ++
            "export const buildInfo = " ++
            unquote_keys
              (JSON_stringify
                 [ ("user", VString "Octocat"); ("hash", VString "1e872b5");
                   ("version", VString "1.0.0");
                   ("timestamp", VString "November 02, 2026 19:49:00") ]) ++
            ";" ++ nl)
           ok)
        (trace (start (project ["--init"])))) /\
  keys [ ("user", VString "Octocat"); ("hash", VString "1e872b5");
         ("version", VString "1.0.0");
         ("timestamp", VString "November 02, 2026 19:49:00") ]
    = ["user"; "hash"; "version"; "timestamp"] /\
  map fst fields = ["hash"; "user"; "version"; "timestamp"] /\
  (no_dq "November 02, 2026 19:49:00" = true ->
   unquote_keys
     (JSON_stringify
        [ ("user", VString "Octocat"); ("hash", VString "1e872b5");
          ("version", VString "1.0.0");
          ("timestamp", VString "November 02, 2026 19:49:00") ]) =
   "{" ++ nl ++
   "    user: " ++ dq ++ "Octocat" ++ dq ++ "," ++ nl ++
   "    hash: " ++ dq ++ "1e872b5" ++ dq ++ "," ++ nl ++
   "    version: " ++ dq ++ "1.0.0" ++ dq ++ "," ++ nl ++
   "    timestamp: " ++ JSON_quote "November 02, 2026 19:49:00" ++ nl ++
   "}").
Proof.
  apply (init_writes_template (project ["--init"])). reflexivity.
Defined.

(** * Further properties *)

(** ** The key-unquoting step deletes double quotes only *)

Lemma span_class_split s :
  s = fst (span_class s) ++ snd (span_class s) /\
  strip_dq (fst (span_class s)) = fst (span_class s).
Proof.
  induction s as [|c s [IH1 IH2]]; simpl; [split; reflexivity|].
  destruct (in_class c) eqn:C; simpl; [|split; reflexivity].
  destruct (span_class s) as [g r]; simpl in *.
  assert (D : Ascii.eqb c DQ = false).
  { unfold in_class in C. destruct (Ascii.eqb c DQ); [|reflexivity].
    rewrite !orb_true_r in C. discriminate C. }
  rewrite D. split; congruence.
Qed.

(** A match is a quoted run followed by a colon. *)
Lemma match_here_some s g r :
  match_here s = Some (g, r) ->
  s = String DQ (g ++ String DQ (String ":" r)) /\ strip_dq g = g.
Proof.
  destruct s as [|c s1]; simpl; [discriminate|].
  destruct (Ascii.eqb c DQ) eqn:C; [|discriminate].
  apply Ascii.eqb_eq in C. subst c.
  destruct (span_class_split s1) as [S1 S2].
  destruct (span_class s1) as [[|g0 g'] [|c2 [|c3 s3]]]; try discriminate.
  destruct (Ascii.eqb c2 DQ) eqn:C2; [|discriminate].
  destruct (Ascii.eqb c3 ":") eqn:C3; [|discriminate].
  apply Ascii.eqb_eq in C2, C3. subst c2 c3. simpl in S1, S2 |- *.
  intros E. inversion E; subst g r. split; [now rewrite S1 | exact S2].
Qed.

Lemma strip_dq_app a b : strip_dq (a ++ b) = strip_dq a ++ strip_dq b.
Proof.
  induction a as [|c a IH]; simpl; [reflexivity|].
  destruct (Ascii.eqb c DQ); simpl; now rewrite IH.
Qed.

Lemma length_append a b : length (a ++ b) = length a + length b.
Proof. induction a as [|c a IH]; simpl; [reflexivity | now rewrite IH]. Qed.

Lemma unquote_keys_strip_bounded n :
  forall s, length s <= n ->
  strip_dq (unquote_keys s) = strip_dq s /\
  length (unquote_keys s) <= length s.
Proof.
  induction n as [|n IH]; intros s Hn.
  - destruct s; [split; reflexivity | simpl in Hn; lia].
  - destruct s as [|c s']; [split; reflexivity|].
    rewrite unquote_keys_step.
    destruct (match_here (String c s')) as [[g r]|] eqn:M.
    + destruct (match_here_some _ _ _ M) as [E G].
      assert (Lr : length r <= n).
      { rewrite E in Hn. simpl in Hn. rewrite length_append in Hn.
        simpl in Hn. lia. }
      destruct (IH r Lr) as [I1 I2]. rewrite E. split.
      * simpl. rewrite !strip_dq_app. simpl. now rewrite I1.
      * simpl. rewrite !length_append. simpl. lia.
    + simpl in Hn. destruct (IH s' ltac:(lia)) as [I1 I2]. split.
      * simpl. now rewrite I1.
      * simpl. lia.
Qed.

(** X1.  The key-unquoting step changes no character other than double
    quotes and adds none: without their double quotes, the text before
    and the text after are the same, and the text after is not longer. *)
Theorem unquote_keys_deletes_quotes_only s :
  strip_dq (unquote_keys s) = strip_dq s /\
  length (unquote_keys s) <= length s.
Proof. apply (unquote_keys_strip_bounded (length s)). lia. Qed.

(** ** Values that are written as they are *)

Lemma starts_with_colon_app a b :
  starts_with_colon (a ++ b) =
  match a with "" => starts_with_colon b | _ => starts_with_colon a end.
Proof. now destruct a. Qed.

Lemma no_dq_colon_app a b :
  no_dq_colon a = true -> no_dq_colon b = true ->
  starts_with_colon b = false ->
  no_dq_colon (a ++ b) = true.
Proof.
  intros Ha Hb Hc. induction a as [|c a IH]; [exact Hb|].
  simpl in *. apply andb_prop in Ha as [H1 H2]. rewrite (IH H2), andb_true_r.
  rewrite starts_with_colon_app. destruct a; [|exact H1].
  now rewrite Hc, andb_false_r.
Qed.

Lemma no_dq_colon_escape_char c t :
  no_dq_colon (escape_char c ++ t) =
  negb (Ascii.eqb c DQ && starts_with_colon t) && no_dq_colon t.
Proof.
  destruct c as [[] [] [] [] [] [] [] []]; reflexivity.
Qed.

Lemma starts_with_colon_escape_char c t :
  starts_with_colon (escape_char c ++ t) = Ascii.eqb c ":"%char.
Proof.
  destruct c as [[] [] [] [] [] [] [] []]; reflexivity.
Qed.

Lemma starts_with_colon_escape s :
  starts_with_colon (escape s) = starts_with_colon s.
Proof.
  destruct s as [|c s]; [reflexivity|].
  simpl. apply starts_with_colon_escape_char.
Qed.

(** Escaping neither makes nor removes a double quote followed by a
    colon. *)
Lemma no_dq_colon_escape s : no_dq_colon (escape s) = no_dq_colon s.
Proof.
  induction s as [|c s IH]; [reflexivity|].
  simpl. now rewrite no_dq_colon_escape_char, starts_with_colon_escape, IH.
Qed.

Lemma no_dq_no_dq_colon s : no_dq s = true -> no_dq_colon s = true.
Proof.
  unfold no_dq. induction s as [|c s IH]; [reflexivity|].
  simpl. intros H. apply andb_prop in H as [Hc Hs]. rewrite (IH Hs).
  unfold not_dq in Hc. now destruct (Ascii.eqb c DQ).
Qed.

(** No match starts at a double quote when the next double quote is not
    followed by a colon. *)
Lemma match_here_calm t :
  first_dq_then_colon t = false -> match_here (String DQ t) = None.
Proof.
  intros H. unfold match_here. rewrite Ascii.eqb_refl.
  assert (A : match snd (span_class t) with
              | String c2 (String c3 _) =>
                  Ascii.eqb c2 DQ && Ascii.eqb c3 ":"%char = false
              | _ => True
              end).
  { induction t as [|c t IH]; simpl; [exact I|].
    simpl in H. destruct (in_class c) eqn:C.
    - assert (D : Ascii.eqb c DQ = false).
      { unfold in_class in C. destruct (Ascii.eqb c DQ); [|reflexivity].
        rewrite !orb_true_r in C. discriminate C. }
      rewrite D in H. specialize (IH H).
      destruct (span_class t) as [g r]. exact IH.
    - simpl. destruct t as [|c3 t]; [exact I|].
      destruct (Ascii.eqb c DQ); [|reflexivity]. exact H. }
  destruct (span_class t) as [[|g0 g] [|c2 [|c3 s3]]]; try reflexivity.
  simpl in A. now rewrite A.
Qed.

Lemma first_dq_then_colon_app x y :
  no_dq_colon x = true -> calm_tail y ->
  first_dq_then_colon (x ++ y) = false.
Proof.
  intros Hx [Y1 Y2]. induction x as [|c x IH]; [exact Y2|].
  simpl in *. apply andb_prop in Hx as [H1 H2].
  destruct (Ascii.eqb c DQ); [|exact (IH H2)].
  rewrite starts_with_colon_app. destruct x as [|a x]; [exact Y1|].
  simpl in H1 |- *. destruct (Ascii.eqb a ":"); [discriminate H1|reflexivity].
Qed.

(** Text in which no double quote is followed by a colon is copied
    unchanged, up to a calm tail. *)
Lemma unquote_keys_calm x y :
  no_dq_colon x = true -> calm_tail y ->
  unquote_keys (x ++ y) = x ++ unquote_keys y.
Proof.
  intros Hx Hy. induction x as [|c x IH]; [reflexivity|].
  simpl in Hx. apply andb_prop in Hx as [H1 H2].
  simpl. rewrite unquote_keys_step.
  assert (M : match_here (String c (x ++ y)) = None).
  { destruct (Ascii.eqb c DQ) eqn:C.
    - apply Ascii.eqb_eq in C. subst c.
      apply match_here_calm. now apply first_dq_then_colon_app.
    - apply match_here_not_dq. unfold not_dq. now rewrite C. }
  now rewrite M, (IH H2).
Qed.

Lemma calm_tail_close : calm_tail (nl ++ "}").
Proof. split; reflexivity. Qed.

Lemma calm_tail_members f fs z :
  identifier (fst f) = true ->
  calm_tail (sep ++ concat sep (map member (f :: fs)) ++ z).
Proof.
  intros Hk.
  assert (E : escape (fst f) = fst f).
  { destruct (fst f); [discriminate|]. now apply escape_ident. }
  destruct (concat_head sep (member f) (map member fs)) as [r Er].
  destruct (member_starts f) as [x Ex].
  change (map member (f :: fs)) with (member f :: map member fs).
  rewrite Er, Ex, E.
  destruct (fst f) as [|k0 k]; [discriminate|]. simpl in Hk.
  apply andb_prop in Hk as [H0 _].
  destruct (ident_char_facts k0 H0) as (_ & _ & _ & Hcolon).
  split; [reflexivity|]. unfold sep. simpl. exact Hcolon.
Qed.

Lemma unquote_keys_member_verbatim kv t :
  verbatim_field kv = true -> calm_tail t ->
  unquote_keys (member kv ++ t) = bare_member kv ++ unquote_keys t.
Proof.
  destruct kv as [k v]. unfold verbatim_field, member, bare_member, JSON_quote.
  simpl fst; simpl snd. intros H Ht.
  apply andb_prop in H as [Hk Hv].
  assert (Ek : escape k = k).
  { destruct k; [discriminate|]. now apply escape_ident. }
  assert (Q : no_dq_colon (escape v ++ dq) = true).
  { apply no_dq_colon_app; [now rewrite no_dq_colon_escape | | ]; reflexivity. }
  rewrite Ek. unfold dq in *.
  repeat rewrite append_assoc. simpl.
  repeat rewrite append_assoc. simpl.
  rewrite (unquote_keys_key k _ Hk).
  f_equal. simpl. f_equal.
  rewrite unquote_keys_step, (match_here_not_dq " " _ eq_refl).
  f_equal.
  replace (escape v ++ String DQ t) with ((escape v ++ String DQ "") ++ t)
    by (now rewrite append_assoc).
  rewrite unquote_keys_step,
    (match_here_calm _ (first_dq_then_colon_app _ _ Q Ht)).
  f_equal. rewrite (unquote_keys_calm _ _ Q Ht).
  now rewrite append_assoc.
Qed.

Lemma unquote_keys_members_verbatim f fs :
  forallb verbatim_field (f :: fs) = true ->
  unquote_keys (concat sep (map member (f :: fs)) ++ nl ++ "}") =
  concat sep (map bare_member (f :: fs)) ++ nl ++ "}".
Proof.
  revert f. induction fs as [|f2 fs IH]; intros f H.
  - simpl in H. rewrite andb_true_r in H.
    change (concat sep (map member [f])) with (member f).
    rewrite (unquote_keys_member_verbatim f _ H calm_tail_close). reflexivity.
  - simpl in H. apply andb_prop in H as [Hf H].
    change (concat sep (map member (f :: f2 :: fs)))
      with (member f ++ sep ++ concat sep (map member (f2 :: fs))).
    change (concat sep (map bare_member (f :: f2 :: fs)))
      with (bare_member f ++ sep ++
            concat sep (map bare_member (f2 :: fs))).
    repeat rewrite append_assoc.
    assert (Hk2 : identifier (fst f2) = true).
    { apply andb_prop in H as [H2 _]. now apply andb_prop in H2 as [? _]. }
    rewrite unquote_keys_member_verbatim;
      [| exact Hf | now apply calm_tail_members].
    f_equal. rewrite (unquote_keys_copy sep _ eq_refl). f_equal.
    apply IH. exact H.
Qed.

Lemma unquote_keys_stringify_verbatim o :
  forallb verbatim_field (string_fields o) = true ->
  unquote_keys (JSON_stringify o) = render o.
Proof.
  intros H. unfold JSON_stringify, render.
  rewrite JSON_members_string_fields.
  destruct (string_fields o) as [|f fs]; [reflexivity|].
  change (map member (f :: fs)) with (member f :: map member fs).
  cbv iota.
  change (member f :: map member fs) with (map member (f :: fs)).
  change ("," ++ nl ++ gap4) with sep.
  replace ("{" ++ nl ++ gap4 ++ concat sep (map member (f :: fs)) ++ nl ++ "}")
    with (("{" ++ nl ++ gap4) ++ concat sep (map member (f :: fs)) ++ nl ++ "}")
    by reflexivity.
  rewrite (unquote_keys_copy ("{" ++ nl ++ gap4) _ eq_refl).
  now rewrite unquote_keys_members_verbatim.
Qed.

(** X2.  For an object whose string fields have identifier keys and
    values in which no double quote is directly followed by a colon, the
    key-unquoting step unquotes the keys and nothing else: the text
    written is the comment line and the record literal with bare keys and
    the values as [JSON.stringify] quotes them, one field per line,
    indented by four spaces, undefined fields left out. *)
Theorem values_written_verbatim o :
  forallb verbatim_field (string_fields o) = true ->
  unquote_keys (JSON_stringify o) =
    match string_fields o with
    | [] => "{}"
    | fs => "{" ++ nl ++ "    " ++
            concat ("," ++ nl ++ "    ")
              (map (fun kv => fst kv ++ ": " ++ JSON_quote (snd kv)) fs) ++
            nl ++ "}"
    end /\
  file_text o =
    "// Angular build information, automatically generated by `angular-build-info`" ++ nl ++
    "export const buildInfo = " ++
    match string_fields o with
    | [] => "{}"
    | fs => "{" ++ nl ++ "    " ++
            concat ("," ++ nl ++ "    ")
              (map (fun kv => fst kv ++ ": " ++ JSON_quote (snd kv)) fs) ++
            nl ++ "}"
    end ++ ";" ++ nl.
Proof.
  intros H. unfold file_text.
  rewrite (unquote_keys_stringify_verbatim o H). split; reflexivity.
Qed.

Lemma values_written_verbatim_witness :
  unquote_keys
    (JSON_stringify
       [("user", VString ("Jane " ++ dq ++ "JD" ++ dq ++ " Doe (she): x"));
        ("hash", VUndefined); ("version", VString "2.3.1")]) =
  "{" ++ nl ++
  "    user: " ++ dq ++ "Jane \" ++ dq ++ "JD\" ++ dq ++ " Doe (she): x" ++ dq ++ "," ++ nl ++
  "    version: " ++ dq ++ "2.3.1" ++ dq ++ nl ++
  "}".
Proof.
  apply (proj1 (values_written_verbatim
    [("user", VString ("Jane " ++ dq ++ "JD" ++ dq ++ " Doe (she): x"));
     ("hash", VUndefined); ("version", VString "2.3.1")] eq_refl)).
Defined.

(** ** The value of a lookup *)

Lemma replace_first_newline a b :
  contains nl a = false -> replace nl "" (a ++ nl ++ b) = a ++ b.
Proof.
  induction a as [|c a IH].
  - intros _. rewrite replace_unfold. cbn [append nl]. rewrite prefix_nl.
    reflexivity.
  - cbn [contains append]. rewrite prefix_nl. intros H.
    apply orb_false_elim in H as [Hc Hs].
    rewrite replace_unfold, prefix_nl, Hc. f_equal. now apply IH.
Qed.

Lemma replace_no_newline a :
  contains nl a = false -> replace nl "" a = a.
Proof.
  induction a as [|c a IH]; [reflexivity|].
  cbn [contains]. rewrite prefix_nl. intros H.
  apply orb_false_elim in H as [Hc Hs].
  rewrite replace_unfold, prefix_nl, Hc. f_equal. now apply IH.
Qed.

(** X3.  When the command exits with code 0 and writes nothing on its
    error channel, a lookup returns the output without its first line
    feed: a first line [a] followed by a line feed and a rest [b] gives
    [a] followed by [b] (so a single line gives that line), and an output
    without line feed is returned as it is. *)
Theorem lookup_value w a b :
  contains nl a = false ->
  (exec w user_cmd = Resolved (a ++ nl ++ b) "" ->
   result (getGitUser w) = Return (VString (a ++ b))) /\
  (exec w hash_cmd = Resolved (a ++ nl ++ b) "" ->
   result (getCommitHash w) = Return (VString (a ++ b))) /\
  (exec w user_cmd = Resolved a "" ->
   result (getGitUser w) = Return (VString a)) /\
  (exec w hash_cmd = Resolved a "" ->
   result (getCommitHash w) = Return (VString a)).
Proof.
  intros H.
  pose proof (getGitUser_cases w) as U.
  pose proof (getCommitHash_cases w) as C.
  repeat split; intros E.
  - rewrite E in U. rewrite U. unfold result. cbn [truthy snd].
    now rewrite replace_first_newline.
  - rewrite E in C. rewrite C. unfold result. cbn [truthy snd].
    now rewrite replace_first_newline.
  - rewrite E in U. rewrite U. unfold result. cbn [truthy snd].
    now rewrite replace_no_newline.
  - rewrite E in C. rewrite C. unfold result. cbn [truthy snd].
    now rewrite replace_no_newline.
Qed.

Lemma lookup_value_witness :
  result (getGitUser (project [])) = Return (VString ("Jane Doe" ++ "")) /\
  result (getCommitHash (project [])) = Return (VString ("abc1234" ++ "")).
Proof.
  split.
  - apply (proj1 (lookup_value (project []) "Jane Doe" "" eq_refl)).
    reflexivity.
  - apply (proj1 (proj2 (lookup_value (project []) "abc1234" "" eq_refl))).
    reflexivity.
Defined.

(** ** The commands a run executes *)

Lemma filter_exec_emitted w o :
  filter is_exec (emitted w o (saved w)) = [].
Proof. unfold emitted. now destruct (writable w (exportPath w)). Qed.

(** The commands of the assembly: those expected, up to the first that
    rejects. *)
Lemma assemble_commands w :
  (exists rest,
     expected_cmds w = (filter is_exec (trace (assemble w)) ++ rest)%list) /\
  (forall o, result (assemble w) = Return o ->
     filter is_exec (trace (assemble w)) = expected_cmds w).
Proof.
  pose proof (getGitUser_cases w) as U.
  pose proof (getCommitHash_cases w) as C.
  unfold assemble, expected_cmds, trace, result.
  destruct (includes (args w) "--no-hash"),
           (includes (args w) "--no-user"),
           (exec w hash_cmd) as [so1 se1|e1],
           (exec w user_cmd) as [so2 se2|e2];
    try destruct (truthy se1); try destruct (truthy se2);
    rewrite ?U, ?C; cbn [negb];
    destruct (includes (args w) "--no-version"),
             (includes (args w) "--no-time");
    (split; [eexists; cbn; reflexivity
            | intros o E; cbn in E |- *; first [reflexivity | discriminate E]]).
Qed.

Lemma buildInfo_execs w :
  existsb unknown (args w) = false ->
  filter is_exec (trace (buildInfo w)) = filter is_exec (trace (assemble w)).
Proof.
  intros V. rewrite buildInfo_unfold, (check_args_valid _ V).
  unfold trace. destruct (assemble w) as [t [o|e]]; cbn [fst].
  - cbn [app filter is_exec]. rewrite filter_app. cbn [filter is_exec].
    now rewrite filter_exec_emitted, app_nil_r.
  - reflexivity.
Qed.

(** The commands of the assembly, by what the revision query does. *)
Lemma assemble_commands_exact w :
  (forall err,
     includes (args w) "--no-hash" = false ->
     exec w hash_cmd = Rejected err ->
     assemble w = ([Exec hash_cmd], Throw (ExecError err))) /\
  (includes (args w) "--no-hash" = true \/
   (exists so se, exec w hash_cmd = Resolved so se) ->
   filter is_exec (trace (assemble w)) = expected_cmds w).
Proof.
  pose proof (getGitUser_cases w) as U.
  pose proof (getCommitHash_cases w) as C.
  unfold assemble, expected_cmds, trace. split.
  - intros err H E. rewrite E in C. rewrite H, C. reflexivity.
  - intros R.
    assert (K : includes (args w) "--no-hash" = true \/
                exists t v, getCommitHash w = (t, Return v) /\
                            filter is_exec t = [Exec hash_cmd]).
    { destruct R as [R | (so & se & R)]; [now left|]. right.
      rewrite R in C. rewrite C.
      destruct (truthy se); eexists _, _; split; reflexivity. }
    assert (G : exists t r, getGitUser w = (t, r) /\
                            filter is_exec t = [Exec user_cmd]).
    { destruct (exec w user_cmd) as [so se|e]; rewrite U;
        [destruct (truthy se)|]; eexists _, _; split; reflexivity. }
    destruct G as (t2 & r2 & -> & F2).
    destruct K as [K | (t1 & v1 & -> & F1)].
    + rewrite K. cbn [negb bind ret app].
      destruct (includes (args w) "--no-user"), r2;
        cbn [negb bind ret app fst]; rewrite ?app_nil_r, ?F2; reflexivity.
    + destruct (includes (args w) "--no-hash"),
               (includes (args w) "--no-user"), r2;
        cbn [negb bind ret app fst];
        rewrite ?app_nil_r, ?filter_app, ?F1, ?F2; reflexivity.
Qed.

(** X4.  [buildInfo] executes only the commands of the lookups that are
    not suppressed, the revision query before the identity query, and
    stops at the first that rejects.  With an unknown argument no command
    is executed.  Otherwise, when the revision query is issued and
    rejects, it is the only command executed and the run throws its
    error; when it is suppressed or resolves, the commands executed are
    exactly the expected ones.  In every run the commands executed are a
    prefix of the expected ones, all of them when the run returns. *)
Theorem buildInfo_commands w :
  (exists rest,
     expected_cmds w =
     (filter is_exec (trace (buildInfo w)) ++ rest)%list) /\
  (result (buildInfo w) = Return tt ->
   filter is_exec (trace (buildInfo w)) = expected_cmds w) /\
  (existsb unknown (args w) = true ->
   filter is_exec (trace (buildInfo w)) = []) /\
  (forall err,
     existsb unknown (args w) = false ->
     includes (args w) "--no-hash" = false ->
     exec w hash_cmd = Rejected err ->
     filter is_exec (trace (buildInfo w)) = [Exec hash_cmd] /\
     result (buildInfo w) = Throw (ExecError err)) /\
  (existsb unknown (args w) = false ->
   includes (args w) "--no-hash" = true \/
   (exists so se, exec w hash_cmd = Resolved so se) ->
   filter is_exec (trace (buildInfo w)) = expected_cmds w).
Proof.
  assert (Old :
    (exists rest,
       expected_cmds w =
       (filter is_exec (trace (buildInfo w)) ++ rest)%list) /\
    (result (buildInfo w) = Return tt ->
     filter is_exec (trace (buildInfo w)) = expected_cmds w) /\
    (existsb unknown (args w) = true ->
     filter is_exec (trace (buildInfo w)) = [])).
  { destruct (assemble_commands w) as [[rest P] Q].
    rewrite buildInfo_unfold.
    destruct (existsb unknown (args w)) eqn:V.
    - destruct (existsb_find _ _ V) as (tok & F & _).
      rewrite (check_args_unknown _ _ F). unfold trace, result. cbn [fst snd].
      split; [exists (expected_cmds w); reflexivity|].
      split; [discriminate | reflexivity].
    - rewrite (check_args_valid _ V).
      unfold trace, result in *.
      destruct (assemble w) as [t [o|e]]; cbn [fst snd] in *.
      + cbn [app filter is_exec]. rewrite filter_app. cbn [filter is_exec].
        rewrite filter_exec_emitted, app_nil_r, (Q o eq_refl).
        split; [exists []; now rewrite app_nil_r|].
        split; [reflexivity | discriminate].
      + cbn [filter is_exec]. split; [exists rest; exact P|].
        split; discriminate. }
  destruct Old as (O1 & O2 & O3).
  destruct (assemble_commands_exact w) as [A1 A2].
  split; [exact O1|]. split; [exact O2|]. split; [exact O3|]. split.
  - intros err V H E. rewrite (buildInfo_execs w V).
    rewrite buildInfo_unfold, (check_args_valid _ V), (A1 err H E).
    split; reflexivity.
  - intros V R. rewrite (buildInfo_execs w V). exact (A2 R).
Qed.

Lemma buildInfo_commands_witness :
  filter is_exec (trace (buildInfo no_git)) = [Exec hash_cmd] /\
  result (buildInfo no_git) =
    Throw (ExecError
             {| exit_code := 128; error_stdout := "";
                error_stderr :=
                  "fatal: not a git repository (or any of the parent directories): .git" ++ nl |}).
Proof.
  apply (proj1 (proj2 (proj2 (proj2 (buildInfo_commands no_git)))));
    reflexivity.
Defined.

(** ** The writes of a run *)

Lemma filter_write_prelude t :
  forallb is_prelude_event t = true -> filter is_write t = [].
Proof.
  induction t as [|e t IH]; simpl; [reflexivity|].
  intros H. apply andb_prop in H as [He Ht]. rewrite (IH Ht).
  now destruct e as [[] ?| |].
Qed.

Lemma filter_write_emitted w o after :
  filter is_write after = [] ->
  List.length (filter is_write (emitted w o after)) = 1.
Proof.
  unfold emitted. intros H.
  destruct (writable w (exportPath w)); simpl; now rewrite ?H.
Qed.

Lemma emitted_write w o after p d ok :
  filter is_write after = [] ->
  In (WriteFile p d ok) (emitted w o after) ->
  p = exportPath w /\ ok = writable w p /\ d = file_text o.
Proof.
  intros H I. apply emitted_in in I as [I | [[_ I] | [_ I]]].
  - inversion I; subst. auto.
  - assert (F : In (WriteFile p d ok) (filter is_write after)).
    { apply filter_In. split; [exact I | reflexivity]. }
    rewrite H in F. destruct F.
  - discriminate I.
Qed.

(** X5.  A run writes at most once, and only to [src/build.ts] under the
    working directory; what it writes starts with the comment line and the
    declaration and ends with a semicolon and a line feed; a run that
    throws has written nothing. *)
Theorem start_writes_once w :
  List.length (filter is_write (trace (start w))) <= 1 /\
  (forall p d ok,
     In (WriteFile p d ok) (trace (start w)) ->
     p = cwd w ++ "/src/build.ts" /\
     ok = writable w p /\
     result (start w) = Return tt /\
     exists body,
       d = "// Angular build information, automatically generated by `angular-build-info`" ++ nl ++
           "export const buildInfo = " ++ body ++ ";" ++ nl).
Proof.
  unfold start.
  destruct (includes (args w) "--init");
    [| destruct (includes (args w) "--help")].
  - rewrite init_unfold. unfold trace, result. cbn [fst snd]. split.
    + rewrite filter_app.
      replace (filter is_write (welcome w)) with (@nil event) by reflexivity.
      cbn [app]. now rewrite filter_write_emitted.
    + intros p d ok I. apply in_app_or in I as [I | I].
      * unfold welcome in I. simpl in I.
        repeat (destruct I as [I | I]; [discriminate I|]). destruct I.
      * destruct (emitted_write w _ created p d ok eq_refl I) as (-> & -> & ->).
        repeat split. eexists. reflexivity.
  - split; [simpl; lia|]. intros p d ok I. simpl in I.
    repeat (destruct I as [I | I]; [discriminate I|]). destruct I.
  - destruct (buildInfo_shape w)
      as [(t & e & -> & P) | (t & hv & uv & -> & P & _)];
      unfold trace, result; cbn [fst snd].
    + rewrite (filter_write_prelude _ P). split; [simpl; lia|].
      intros p d ok I. apply (prelude_event_in _ _ P) in I. discriminate I.
    + split.
      * rewrite filter_app, (filter_write_prelude _ P). cbn [app filter is_write].
        now rewrite filter_write_emitted.
      * intros p d ok I. apply in_app_or in I as [I | [I | I]];
          [apply (prelude_event_in _ _ P) in I; discriminate I
          | discriminate I |].
        destruct (emitted_write w _ (saved w) p d ok eq_refl I)
          as (-> & -> & ->).
        repeat split. eexists. reflexivity.
Qed.

Lemma start_writes_once_witness :
  "/project/src/build.ts" = cwd (project ["--init"]) ++ "/src/build.ts" /\
  true = writable (project ["--init"]) "/project/src/build.ts" /\
  result (start (project ["--init"])) = Return tt /\
  exists body,
    file_text (template (project ["--init"])) =
    "// Angular build information, automatically generated by `angular-build-info`" ++ nl ++
    "export const buildInfo = " ++ body ++ ";" ++ nl.
Proof.
  apply (proj2 (start_writes_once (project ["--init"]))
           "/project/src/build.ts" _ true).
  vm_compute. do 4 right. left. reflexivity.
Defined.

Lemma emitted_succeeded w o after p d :
  In (WriteFile p d true) (emitted w o after) ->
  forallb (fun e => negb (is_write e)) after = true ->
  p = exportPath w /\
  emitted w o after = WriteFile p d true :: after.
Proof.
  unfold emitted. destruct (writable w (exportPath w)); simpl.
  - intros [H | H] Q.
    + inversion H; subst. split; reflexivity.
    + rewrite forallb_forall in Q. apply Q in H. discriminate H.
  - intros [H | [H | []]] _; discriminate H.
Qed.

(** X6.  In every run of [buildInfo] in which the write succeeds, the
    write is the last action but one: it is followed by one success line
    that names the destination path, and the run returns. *)
Theorem buildInfo_write_confirmed w p d :
  In (WriteFile p d true) (trace (buildInfo w)) ->
  result (buildInfo w) = Return tt /\
  exists t,
    trace (buildInfo w) =
    (t ++ [WriteFile p d true;
           Log Success [LText ("Saved build information to `" ++ p ++ "`")]])%list.
Proof.
  destruct (buildInfo_shape w)
    as [(t & e & -> & P) | (t & hv & uv & -> & P & _)];
    unfold trace, result; cbn [fst snd]; intros H.
  - apply (prelude_event_in _ _ P) in H. discriminate H.
  - apply in_app_or in H as [H | [H | H]];
      [apply (prelude_event_in _ _ P) in H; discriminate H
      | discriminate H |].
    destruct (emitted_succeeded _ _ _ _ _ H eq_refl) as [-> E].
    rewrite E. split; [reflexivity|].
    exists (t ++ [Log Info [LObject (record_of w hv uv)]])%list.
    rewrite <- app_assoc. reflexivity.
Qed.

Lemma buildInfo_write_confirmed_witness :
  result (buildInfo (project ["--no-time"])) = Return tt /\
  exists t,
    trace (buildInfo (project ["--no-time"])) =
    (t ++ [WriteFile "/project/src/build.ts"
             (file_text [("hash", VString "abc1234");
                         ("user", VString "Jane Doe");
                         ("version", VString "2.3.1")])
             true;
           Log Success
             [LText ("Saved build information to `" ++
                     "/project/src/build.ts" ++ "`")]])%list.
Proof.
  apply (buildInfo_write_confirmed (project ["--no-time"])).
  vm_compute. do 6 right. left. reflexivity.
Defined.

(** ** Order and repetition of the flags *)

Lemma includes_In l x : includes l x = true <-> In x l.
Proof.
  unfold includes. rewrite existsb_exists. split.
  - intros (y & I & E). apply String.eqb_eq in E. now subst.
  - intros I. exists x. split; [exact I | apply String.eqb_refl].
Qed.

Lemma same_flags_valid a b :
  (forall x, includes a x = includes b x) ->
  existsb unknown a = false -> existsb unknown b = false.
Proof.
  intros S V. destruct (existsb unknown b) eqn:U; [|reflexivity].
  apply existsb_exists in U as (x & I & Ux).
  apply includes_In in I. rewrite <- S in I. apply includes_In in I.
  assert (T : existsb unknown a = true).
  { apply existsb_exists. eauto. }
  congruence.
Qed.

Lemma assemble_same_flags w a b :
  (forall x, includes a x = includes b x) ->
  assemble (with_args w a) = assemble (with_args w b).
Proof.
  intros S. unfold assemble. cbn [with_args args package_version now].
  rewrite !S. reflexivity.
Qed.

(** X7.  Among argument lists that pass validation, the order and the
    repetition of the flags make no difference: two lists with the same
    members give the same run (the same events and the same outcome). *)
Theorem start_same_flags w a b :
  (forall x, includes a x = includes b x) ->
  existsb unknown a = false ->
  start (with_args w a) = start (with_args w b).
Proof.
  intros S V. pose proof (same_flags_valid a b S V) as V'.
  unfold start. cbn [with_args args]. rewrite !S.
  destruct (includes b "--init"); [reflexivity|].
  destruct (includes b "--help"); [reflexivity|].
  rewrite !buildInfo_unfold. cbn [with_args args].
  rewrite (check_args_valid _ V), (check_args_valid _ V').
  rewrite (assemble_same_flags w a b S). reflexivity.
Qed.

Lemma start_same_flags_witness :
  start (with_args (project []) ["--no-time"; "--no-hash"]) =
  start (with_args (project []) ["--no-hash"; "--no-time"; "--no-hash"]).
Proof.
  apply (start_same_flags (project [])).
  - intros x. unfold includes. cbn [existsb].
    destruct ("--no-time" =? x), ("--no-hash" =? x); reflexivity.
  - reflexivity.
Defined.

(** ** Nothing to report *)

(** X8.  When all four suppression flags are given (and nothing
    unknown, no [--init], no [--help]) the run executes no command, logs
    the empty object and writes the declaration of the empty record. *)
Theorem start_all_suppressed w :
  existsb unknown (args w) = false ->
  includes (args w) "--init" = false ->
  includes (args w) "--help" = false ->
  includes (args w) "--no-hash" = true ->
  includes (args w) "--no-user" = true ->
  includes (args w) "--no-version" = true ->
  includes (args w) "--no-time" = true ->
  start w =
    ([ Log Start [LText "Collecting build information..."];
       Log Info [LObject []];
       WriteFile (cwd w ++ "/src/build.ts")
         ("// Angular build information, automatically generated by `angular-build-info`" ++ nl ++
          "export const buildInfo = {};" ++ nl)
         (writable w (cwd w ++ "/src/build.ts"));
       if writable w (cwd w ++ "/src/build.ts")
       then Log Success
              [LText ("Saved build information to `" ++ (cwd w ++
                      "/src/build.ts") ++ "`")]
       else Log Error
              [LText ("An error occured writing to `" ++ (cwd w ++
                      "/src/build.ts") ++ "`, does the path exist?")] ],
     Return tt).
Proof.
  intros V Hi Hh H1 H2 H3 H4.
  unfold start. rewrite Hi, Hh, buildInfo_unfold, (check_args_valid _ V).
  unfold assemble. rewrite H1, H2, H3, H4.
  cbn [negb bind ret app]. unfold emitted, saved, write_error, exportPath.
  destruct (writable w (cwd w ++ "/src/build.ts")); reflexivity.
Qed.

Lemma start_all_suppressed_witness :
  start (project ["--no-time"; "--no-user"; "--no-version"; "--no-hash"]) =
    ([ Log Start [LText "Collecting build information..."];
       Log Info [LObject []];
       WriteFile ("/project" ++ "/src/build.ts")
         ("// Angular build information, automatically generated by `angular-build-info`" ++ nl ++
          "export const buildInfo = {};" ++ nl)
         true;
       Log Success
         [LText ("Saved build information to `" ++ ("/project" ++
                 "/src/build.ts") ++ "`")] ],
     Return tt).
Proof.
  apply (start_all_suppressed
           (project ["--no-time"; "--no-user"; "--no-version"; "--no-hash"]));
    reflexivity.
Defined.

(** ** A run that finds everything *)

(** X9.  Without arguments, when both git commands print one line and
    nothing on the error channel, the package version is a string, none
    of the four values holds a double quote directly followed by a colon
    and the destination is writable, the run is: the start line, the
    revision query and its success line, the identity query and its
    success line, the object with the keys hash, user, version and
    timestamp, the write of exactly the text below, and the confirmation. *)
Theorem start_finds_everything w h u v :
  args w = [] ->
  exec w hash_cmd = Resolved (h ++ nl) "" -> contains nl h = false ->
  exec w user_cmd = Resolved (u ++ nl) "" -> contains nl u = false ->
  package_version w = VString v ->
  no_dq_colon h = true -> no_dq_colon u = true ->
  no_dq_colon v = true -> no_dq_colon (now w) = true ->
  writable w (cwd w ++ "/src/build.ts") = true ->
  start w =
    ([ Log Start [LText "Collecting build information..."];
       Exec "git rev-parse --short HEAD";
       Log Success [LText "Found commit hash:"; LText h];
       Exec "git config user.name";
       Log Success [LText "Found git user:"; LText u];
       Log Info
         [LObject [ ("hash", VString h); ("user", VString u);
                    ("version", VString v);
                    ("timestamp", VString (now w)) ]];
       WriteFile (cwd w ++ "/src/build.ts")
         ("// Angular build information, automatically generated by `angular-build-info`" ++ nl ++
          "export const buildInfo = {" ++ nl ++
          "    hash: " ++ JSON_quote h ++ "," ++ nl ++
          "    user: " ++ JSON_quote u ++ "," ++ nl ++
          "    version: " ++ JSON_quote v ++ "," ++ nl ++
          "    timestamp: " ++ JSON_quote (now w) ++ nl ++
          "};" ++ nl)
         true;
       Log Success
         [LText ("Saved build information to `" ++ (cwd w ++
                 "/src/build.ts") ++ "`")] ],
     Return tt).
Proof.
  intros A Eh Nh Eu Nu Ev Qh Qu Qv Qn W.
  pose proof (getGitUser_cases w) as U. rewrite Eu in U.
  pose proof (getCommitHash_cases w) as C. rewrite Eh in C.
  cbn [truthy] in U, C.
  rewrite (replace_single_newline u Nu) in U.
  rewrite (replace_single_newline h Nh) in C.
  unfold start. rewrite buildInfo_unfold. unfold assemble. rewrite A.
  unfold includes. cbn [existsb check_args negb]. rewrite U, C, Ev.
  cbn [bind ret app set_prop String.eqb Ascii.eqb Bool.eqb].
  unfold emitted, saved, exportPath. rewrite W.
  unfold file_text, banner.
  rewrite unquote_keys_stringify_verbatim.
  - unfold render, bare_member, user_cmd, hash_cmd.
    cbn [string_fields map concat fst snd].
    repeat rewrite append_assoc. reflexivity.
  - simpl. unfold verbatim_field. simpl. now rewrite Qh, Qu, Qv, Qn.
Qed.

Lemma start_finds_everything_witness :
  start (project []) =
    ([ Log Start [LText "Collecting build information..."];
       Exec "git rev-parse --short HEAD";
       Log Success [LText "Found commit hash:"; LText "abc1234"];
       Exec "git config user.name";
       Log Success [LText "Found git user:"; LText "Jane Doe"];
       Log Info
         [LObject [ ("hash", VString "abc1234"); ("user", VString "Jane Doe");
                    ("version", VString "2.3.1");
                    ("timestamp", VString (now (project []))) ]];
       WriteFile (cwd (project []) ++ "/src/build.ts")
         ("// Angular build information, automatically generated by `angular-build-info`" ++ nl ++
          "export const buildInfo = {" ++ nl ++
          "    hash: " ++ JSON_quote "abc1234" ++ "," ++ nl ++
          "    user: " ++ JSON_quote "Jane Doe" ++ "," ++ nl ++
          "    version: " ++ JSON_quote "2.3.1" ++ "," ++ nl ++
          "    timestamp: " ++ JSON_quote (now (project [])) ++ nl ++
          "};" ++ nl)
         true;
       Log Success
         [LText ("Saved build information to `" ++ (cwd (project []) ++
                 "/src/build.ts") ++ "`")] ],
     Return tt).
Proof.
  apply (start_finds_everything (project []) "abc1234" "Jane Doe" "2.3.1");
    reflexivity.
Defined.

(** ** A lookup that rejects *)

(** X10.  When the arguments pass validation and the command of a lookup
    that is not suppressed exits with a non-zero code, the run stops
    there with the error of the command.  After a rejected revision query
    the run is the start line and that command: the identity query is
    not issued.  After a rejected identity query the run is the start
    line, the revision query with its log line when it is not
    suppressed, and the rejected command.  In both cases no object is
    logged and nothing is written. *)
Theorem rejected_lookup_aborts w err :
  existsb unknown (args w) = false ->
  (includes (args w) "--no-hash" = false ->
   exec w hash_cmd = Rejected err ->
   buildInfo w =
     ([Log Start [LText "Collecting build information..."]; Exec hash_cmd],
      Throw (ExecError err))) /\
  (includes (args w) "--no-user" = false ->
   exec w user_cmd = Rejected err ->
   (includes (args w) "--no-hash" = true ->
    buildInfo w =
      ([Log Start [LText "Collecting build information..."]; Exec user_cmd],
       Throw (ExecError err))) /\
   (forall so se,
      includes (args w) "--no-hash" = false ->
      exec w hash_cmd = Resolved so se ->
      buildInfo w =
        ([ Log Start [LText "Collecting build information..."];
           Exec hash_cmd;
           if truthy se
           then Log Error
                  [LText "Error getting latest commit hash, skipping..."]
           else Log Success
                  [LText "Found commit hash:"; LText (replace nl "" so)];
           Exec user_cmd ],
         Throw (ExecError err))) /\
   (includes (args w) "--no-hash" = true \/
    (exists so se, exec w hash_cmd = Resolved so se) ->
    result (buildInfo w) = Throw (ExecError err) /\
    filter is_write (trace (buildInfo w)) = [] /\
    forallb is_prelude_event (trace (buildInfo w)) = true /\
    exists t, trace (buildInfo w) = (t ++ [Exec user_cmd])%list)).
Proof.
  intros V.
  pose proof (getGitUser_cases w) as U.
  pose proof (getCommitHash_cases w) as C.
  split.
  - intros H E. rewrite E in C.
    rewrite buildInfo_unfold, (check_args_valid _ V). unfold assemble.
    rewrite H, C. reflexivity.
  - intros H E. rewrite E in U.
    assert (A : includes (args w) "--no-hash" = true ->
                buildInfo w =
                ([Log Start [LText "Collecting build information..."];
                  Exec user_cmd], Throw (ExecError err))).
    { intros R.
      rewrite buildInfo_unfold, (check_args_valid _ V). unfold assemble.
      rewrite H, U, R. reflexivity. }
    assert (B : forall so se,
                includes (args w) "--no-hash" = false ->
                exec w hash_cmd = Resolved so se ->
                buildInfo w =
                ([ Log Start [LText "Collecting build information..."];
                   Exec hash_cmd;
                   if truthy se
                   then Log Error
                          [LText "Error getting latest commit hash, skipping..."]
                   else Log Success
                          [LText "Found commit hash:";
                           LText (replace nl "" so)];
                   Exec user_cmd ],
                 Throw (ExecError err))).
    { intros so se R E1. rewrite E1 in C.
      rewrite buildInfo_unfold, (check_args_valid _ V). unfold assemble.
      rewrite H, U, R, C. destruct (truthy se); reflexivity. }
    split; [exact A|]. split; [exact B|].
    intros [R | (so & se & R)].
    + rewrite (A R). unfold trace, result. cbn [fst snd]. repeat split.
      now exists [Log Start [LText "Collecting build information..."]].
    + destruct (includes (args w) "--no-hash") eqn:F.
      * rewrite (A eq_refl). unfold trace, result. cbn [fst snd].
        repeat split.
        now exists [Log Start [LText "Collecting build information..."]].
      * rewrite (B so se eq_refl R). unfold trace, result. cbn [fst snd].
        destruct (truthy se); repeat split; eexists [_; _; _]; reflexivity.
Qed.

Lemma rejected_lookup_aborts_witness :
  buildInfo no_git =
    ([Log Start [LText "Collecting build information..."]; Exec hash_cmd],
     Throw (ExecError
              {| exit_code := 128; error_stdout := "";
                 error_stderr :=
                   "fatal: not a git repository (or any of the parent directories): .git" ++ nl |})).
Proof.
  apply (proj1 (rejected_lookup_aborts no_git _ eq_refl)); reflexivity.
Defined.
